(** * BSD-tweaker: the sysctl advisor of [tweak.py]

    A shallow embedding of [tweak.py] and the properties of its
    recommendation heuristic, of the apply loop with its table of original
    values, and of the revert loop.

    The script talks to its environment through three channels only: shell
    commands ([sysctl -n], [sysctl -w]) run by [subprocess.run], appends to
    [/etc/sysctl.conf], and [print].  The embedding threads one [world]
    value through the code that records all three, together with the
    module-level dictionary [original_values].

    Two facts about the source shape the embedding.  Commands go to
    [/bin/sh] as unquoted text ([shell=True]), so the text, not the pair of
    name and value, decides what happens: [sh] below follows the text.
    And [main] reads its flags as [args.try], which is not Python: [try]
    is a keyword, the file does not compile, and no statement of it ever
    runs.  [script] is the program as the interpreter takes it; [main] is
    the body of the function read with [getattr(args, "try")] in the three
    places, and every statement about [main] is a statement about that
    reading. *)

From Stdlib Require Import ZArith String Ascii List Bool Lia DecimalString.
From Stdlib Require DecimalPos.
From stdpp Require Import base gmap strings list fin_maps.

Local Open Scope Z_scope.

(** ** Python values and text *)

Module Py.

(** [str(n)] for a Python [int]. *)
Definition str_int (n : Z) : string := NilZero.string_of_int (Z.to_int n).

(** The values [set_sysctl] and [save_sysctl] interpolate into an f-string:
    an [int] taken from the recommendation list, or a [str] read back from
    [original_values]. *)
Inductive value :=
  | Int (n : Z)
  | Str (s : string).

(** [f"{v}"] *)
Definition format (v : value) : string :=
  match v with
  | Int n => str_int n
  | Str s => s
  end.

Definition nl : string := String "010"%char EmptyString.

(** [c.isspace()] on the ASCII range: tab, LF, VT, FF, CR, FS, GS, RS, US
    and the blank. *)
Definition isspace (c : ascii) : bool :=
  let n := nat_of_ascii c in
  ((9 <=? n) && (n <=? 13) || (28 <=? n) && (n <=? 32))%nat.

Fixpoint lstrip (s : string) : string :=
  match s with
  | String c s' => if isspace c then lstrip s' else s
  | EmptyString => EmptyString
  end.

(** [rstrip] drops the longest all-blank suffix. *)
Fixpoint rstrip (s : string) : string :=
  match s with
  | String c s' =>
      match rstrip s' with
      | EmptyString => if isspace c then EmptyString else String c EmptyString
      | r => String c r
      end
  | EmptyString => EmptyString
  end.

(** [s.strip()] *)
Definition strip (s : string) : string := rstrip (lstrip s).

Definition digit (c : ascii) : option Z :=
  let n := nat_of_ascii c in
  if ((48 <=? n) && (n <=? 57))%nat then Some (Z.of_nat n - 48) else None.

(** The digit part of a decimal literal as [int()] reads it: digits, with
    single underscores allowed between two digits.  [after_digit] tells
    whether the previous character was a digit; [acc] is the value read so
    far. *)
Fixpoint digits (acc : Z) (after_digit : bool) (s : string) : option Z :=
  match s with
  | EmptyString => if after_digit then Some acc else None
  | String c s' =>
      match digit c with
      | Some d => digits (10 * acc + d) true s'
      | None =>
          if (Ascii.eqb c "_" && after_digit)%bool
          then match s' with
               | String c' _ =>
                   match digit c' with
                   | Some _ => digits acc false s'
                   | None => None
                   end
               | EmptyString => None
               end
          else None
      end
  end.

(** [int(s)] for a [str] argument, base 10: surrounding blanks are dropped,
    one sign is allowed. [None] stands for [ValueError]. *)
Definition int (s : string) : option Z :=
  match strip s with
  | String "-" r => Z.opp <$> digits 0 false r
  | String "+" r => digits 0 false r
  | r => digits 0 false r
  end.

End Py.

(** ** The advisor's rule table ([suggest_tweaks], first half) *)

Definition cpu_info : Type := string * Z * string.
Definition memory_info : Type := Z * Z.
Definition network_settings : Type := Z * Z.

(** The list [recommendations] as [suggest_tweaks] has built it when it
    reaches its display loop.  Every [append] of the source is one [++ [_]]
    here, in the same order. *)
Definition recommendations
    (cpu : cpu_info) (mem : memory_info) (net : network_settings)
    : list (string * Z) :=
  let '(model, cores, smt) := cpu in
  let '(physmem, usermem) := mem in
  let '(tcp_sendspace, tcp_recvspace) := net in
  let recs := [] in
  let recs := if cores >? 2 then recs ++ [("kern.sched.quantum", 10)] else recs in
  let recs := if String.eqb smt "1" then recs ++ [("hw.smt", 0)] else recs in
  let recs := if physmem >=? 4096
              then recs ++ [("kern.maxvnodes", 250000)]
              else recs ++ [("kern.bufcachepercent", 15)] in
  let recs := if tcp_sendspace <? 65536
              then recs ++ [("net.inet.tcp.sendspace", 65536)] else recs in
  let recs := if tcp_recvspace <? 65536
              then recs ++ [("net.inet.tcp.recvspace", 65536)] else recs in
  recs ++ [("kern.somaxconn", 1024)].

(** ** The environment: kernel, shell, file, terminal *)

(** The two shell commands the script ever builds, kept structured;
    [command_line] is the text handed to [subprocess.run(..., shell=True)]. *)
Inductive command :=
  | SysctlN (name : string)
  | SysctlW (name value : string).

Definition command_line (c : command) : string :=
  match c with
  | SysctlN name => "sysctl -n " +:+ name
  | SysctlW name value => "sysctl -w " +:+ name +:+ "=" +:+ value
  end.

(** Does the command change the kernel's table? *)
Definition is_write (c : command) : bool :=
  match c with
  | SysctlW _ _ => true
  | SysctlN _ => false
  end.

(** What [subprocess.run] hands back, as far as the script looks at it:
    the captured standard output and the exit status. *)
Record completed := Completed {
  proc_stdout : string;
  returncode : Z
}.

(** The kernel's side of [sysctl(8)], the part of the environment the
    script reads and changes: a table of tunables, the names on which a
    write exits non-zero (read-only or unknown name, missing privilege),
    and [other], what the shell and [sysctl] make of any command text that
    is not one plain [sysctl] call: some output, some exit status and some
    new table, about which the model assumes nothing. *)
Record kernel := MkKernel {
  tunables : gmap string string;
  refused : gset string;
  other : string -> gmap string string -> completed * gmap string string
}.

(** A shell that rejects every text it is asked about and changes nothing. *)
Definition sh_rejects (text : string) (t : gmap string string)
    : completed * gmap string string :=
  (Completed "" 2, t).

(** A kernel behind such a shell. *)
Definition Kernel (t : gmap string string) (r : gset string) : kernel :=
  MkKernel t r sh_rejects.

(** The kernel's answer to one plain [sysctl] call.  [sysctl -n] prints
    the value and a newline, or nothing (and fails) for a name it does not
    know; it changes nothing.  [sysctl -w] either fails and changes
    nothing, or stores the text it is given under the name; what it prints
    is never read by the script. *)
Definition exec (c : command) (k : kernel) : completed * kernel :=
  match c with
  | SysctlN name =>
      match tunables k !! name with
      | Some v => (Completed (v +:+ Py.nl) 0, k)
      | None => (Completed "" 1, k)
      end
  | SysctlW name value =>
      if decide (name ∈ refused k)
      then (Completed "" 1, k)
      else (Completed "" 0,
            MkKernel (<[name:=value]> (tunables k)) (refused k) (other k))
  end.

(** *** The shell *)

(** Every character of [s] passes [p]. *)
Fixpoint all_chars (p : ascii -> bool) (s : string) : bool :=
  match s with
  | EmptyString => true
  | String c s' => p c && all_chars p s'
  end.

Definition is_alnum (c : ascii) : bool :=
  let n := nat_of_ascii c in
  ((48 <=? n) && (n <=? 57) || (65 <=? n) && (n <=? 90)
   || (97 <=? n) && (n <=? 122))%nat.

(** Characters of a tunable's name that mean nothing to the shell:
    letters, digits, the dot and the underscore. *)
Definition name_char (c : ascii) : bool :=
  is_alnum c || Ascii.eqb c "." || Ascii.eqb c "_".

(** The same and the minus sign, for values. *)
Definition value_char (c : ascii) : bool :=
  name_char c || Ascii.eqb c "-".

(** Text the shell passes on as it is, in one word: not empty, no blank,
    no character the shell or [sysctl] gives a meaning to. *)
Definition plain_name (s : string) : bool :=
  match s with
  | EmptyString => false
  | _ => all_chars name_char s
  end.

Definition plain_value (s : string) : bool :=
  match s with
  | EmptyString => false
  | _ => all_chars value_char s
  end.

(** [s] without the prefix [p], if it starts with it. *)
Fixpoint strip_prefix (p s : string) : option string :=
  match p, s with
  | EmptyString, _ => Some s
  | String a p', String b s' =>
      if Ascii.eqb a b then strip_prefix p' s' else None
  | String _ _, EmptyString => None
  end.

(** [s] cut at its first [=]. *)
Fixpoint split_assignment (s : string) : option (string * string) :=
  match s with
  | EmptyString => None
  | String c s' =>
      if Ascii.eqb c "="
      then Some (EmptyString, s')
      else match split_assignment s' with
           | Some (n, v) => Some (String c n, v)
           | None => None
           end
  end.

(** The command texts the shell reads as one plain call of [sysctl]: the
    two templates of the script, filled with plain text. *)
Definition parse (text : string) : option command :=
  match strip_prefix "sysctl -n " text with
  | Some name => if plain_name name then Some (SysctlN name) else None
  | None =>
      match strip_prefix "sysctl -w " text with
      | Some rest =>
          match split_assignment rest with
          | Some (name, value) =>
              if plain_name name && plain_value value
              then Some (SysctlW name value)
              else None
          | None => None
          end
      | None => None
      end
  end.

(** [/bin/sh -c text]: a plain call goes to the kernel as [exec] has it;
    for any other text (a blank or a quote in a value, a parenthesis, a
    second operand) the outcome is whatever [other] says. *)
Definition sh (text : string) (k : kernel) : completed * kernel :=
  match parse text with
  | Some c => exec c k
  | None =>
      let '(r, t) := other k text (tunables k) in
      (r, MkKernel t (refused k) (other k))
  end.

(** [original_values]: a Python [dict] from [str] to [str].  Iteration
    follows insertion order, so the dictionary is the list of its items in
    that order. *)
Module Dict.

Definition t : Type := list (string * string).

(** [d.get(k)] *)
Fixpoint get (d : t) (k : string) : option string :=
  match d with
  | [] => None
  | (k', v) :: d' => if String.eqb k k' then Some v else get d' k
  end.

(** [k in d] *)
Definition contains (d : t) (k : string) : bool :=
  match get d k with
  | Some _ => true
  | None => false
  end.

(** [d[k] = v]: a present key keeps its place, a new one goes last. *)
Fixpoint set (d : t) (k v : string) : t :=
  match d with
  | [] => [(k, v)]
  | (k', v') :: d' =>
      if String.eqb k k' then (k, v) :: d' else (k', v') :: set d' k v
  end.

(** [d.keys()] *)
Definition keys (d : t) : list string := map fst d.

End Dict.

(** Everything a run of the script can read or change. *)
Record world := World {
  kern : kernel;                  (* the live tunable store *)
  sysctl_conf : string;           (* content of /etc/sysctl.conf *)
  original_values : Dict.t;       (* the module-level dictionary *)
  stdout : list string;           (* one entry per [print] call *)
  shell : list command            (* commands run so far, oldest first *)
}.

(** ** A state monad over [world], and exceptions on top of it *)

Definition IO (A : Type) : Type := world -> A * world.

Definition ret {A} (a : A) : IO A := fun w => (a, w).

Definition bind {A B} (m : IO A) (f : A -> IO B) : IO B :=
  fun w => let '(a, w') := m w in f a w'.

Declare Scope io_scope.
Delimit Scope io_scope with io.
Notation "x <- m ;; k" := (bind m (fun x => k))
  (at level 100, m at next level, k at level 200, right associativity) : io_scope.
Notation "m ;; k" := (bind m (fun _ => k))
  (at level 100, k at level 200, right associativity) : io_scope.
Local Open Scope io_scope.

(** The world a computation leaves behind. *)
Definition run {A} (m : IO A) (w : world) : world := snd (m w).

(** [for x in l: body(x)] *)
Fixpoint for_each {A} (l : list A) (body : A -> IO unit) : IO unit :=
  match l with
  | [] => ret tt
  | x :: l' => body x ;; for_each l' body
  end.

Inductive exn := ValueError | SyntaxError.

Inductive result (A : Type) :=
  | Ok (a : A)
  | Raise (e : exn).
Arguments Ok {A} a.
Arguments Raise {A} e.

(** A computation that may raise: on [Raise] the rest is skipped and the
    world stays as the raising statement left it. *)
Definition try_bind {A B} (m : IO (result A)) (f : A -> IO (result B))
    : IO (result B) :=
  fun w => match m w with
           | (Ok a, w') => f a w'
           | (Raise e, w') => (Raise e, w')
           end.

Definition lift {A} (m : IO A) : IO (result A) := a <- m ;; ret (Ok a).

Notation "x <-? m ;; k" := (try_bind m (fun x => k))
  (at level 65, m at next level, right associativity) : io_scope.

(** ** The script's functions, in source order *)

(** [subprocess.run(command, shell=True, capture_output=True, text=True)]:
    the text of the command goes to the shell; the log keeps the command
    in the structured form it was built from. *)
Definition subprocess_run (c : command) : IO completed :=
  fun w =>
    let '(r, k) := sh (command_line c) (kern w) in
    (r, World k (sysctl_conf w) (original_values w) (stdout w) (shell w ++ [c])).

Definition print (line : string) : IO unit :=
  fun w =>
    (tt, World (kern w) (sysctl_conf w) (original_values w)
               (stdout w ++ [line]) (shell w)).

Definition run_command (c : command) : IO string :=
  r <- subprocess_run c ;;
  ret (Py.strip (proc_stdout r)).

Definition set_sysctl (name : string) (value : Py.value) : IO unit :=
  r <- subprocess_run (SysctlW name (Py.format value)) ;;
  print ("Setting " +:+ name +:+ " to " +:+ Py.format value +:+ ": "
         +:+ (if returncode r =? 0 then "Success" else "Failed")).

Definition get_sysctl (name : string) : IO string :=
  run_command (SysctlN name).

(** [open("/etc/sysctl.conf", "a")] then one [write]: the text goes right
    after the present content, whether or not that ends in a newline. *)
Definition save_sysctl (name : string) (value : Py.value) : IO unit :=
  fun w =>
    (tt, World (kern w)
               (sysctl_conf w +:+ (name +:+ "=" +:+ Py.format value +:+ Py.nl))
               (original_values w) (stdout w) (shell w)).

Definition read_original_values : IO Dict.t :=
  fun w => (original_values w, w).

(** [original_values[name] = value] *)
Definition store_original_value (name value : string) : IO unit :=
  fun w =>
    (tt, World (kern w) (sysctl_conf w)
               (Dict.set (original_values w) name value) (stdout w) (shell w)).

Definition revert_sysctl (name : string) : IO unit :=
  d <- read_original_values ;;
  match Dict.get d name with
  | Some v => set_sysctl name (Py.Str v)
  | None => ret tt
  end.

Definition get_cpu_info : IO (result cpu_info) :=
  model <- get_sysctl "hw.model" ;;
  ncpu <- get_sysctl "hw.ncpu" ;;
  match Py.int ncpu with
  | None => ret (Raise ValueError)
  | Some cores =>
      smt <- get_sysctl "hw.smt" ;;
      ret (Ok (model, cores, smt))
  end.

Definition get_memory_info : IO (result memory_info) :=
  p <- get_sysctl "hw.physmem" ;;
  match Py.int p with
  | None => ret (Raise ValueError)
  | Some pb =>
      let physmem := pb / 1024 ^ 2 in
      u <- get_sysctl "hw.usermem" ;;
      match Py.int u with
      | None => ret (Raise ValueError)
      | Some ub =>
          let usermem := ub / 1024 ^ 2 in
          ret (Ok (physmem, usermem))
      end
  end.

Definition get_network_settings : IO (result network_settings) :=
  s <- get_sysctl "net.inet.tcp.sendspace" ;;
  match Py.int s with
  | None => ret (Raise ValueError)
  | Some tcp_sendspace =>
      r <- get_sysctl "net.inet.tcp.recvspace" ;;
      match Py.int r with
      | None => ret (Raise ValueError)
      | Some tcp_recvspace => ret (Ok (tcp_sendspace, tcp_recvspace))
      end
  end.

(** The body of the display loop of [suggest_tweaks] for one
    [(sysctl_name, suggested_value)]. *)
Definition suggest_one (try_flag keep_flag : bool) (rec : string * Z) : IO unit :=
  let '(sysctl_name, suggested_value) := rec in
  current_value <- get_sysctl sysctl_name ;;
  print ("- " +:+ sysctl_name +:+ ": Current = " +:+ current_value
         +:+ ", Suggested = " +:+ Py.str_int suggested_value) ;;
  if try_flag then
    d <- read_original_values ;;
    (if negb (Dict.contains d sysctl_name)
     then store_original_value sysctl_name current_value
     else ret tt) ;;
    set_sysctl sysctl_name (Py.Int suggested_value) ;;
    if keep_flag
    then save_sysctl sysctl_name (Py.Int suggested_value)
    else ret tt
  else ret tt.

(** The display loop alone, over any list of recommendations. *)
Definition suggest_loop (try_flag keep_flag : bool) (recs : list (string * Z))
    : IO unit :=
  for_each recs (suggest_one try_flag keep_flag).

Definition suggest_tweaks
    (cpu : cpu_info) (mem : memory_info) (net : network_settings)
    (try_flag keep_flag : bool) : IO unit :=
  print (Py.nl +:+ "Recommended sysctl tweaks and performance suggestions:") ;;
  suggest_loop try_flag keep_flag (recommendations cpu mem net).

(** The loop of [main] under [if args.revert]. *)
Definition revert_loop : IO unit :=
  d <- read_original_values ;;
  for_each (Dict.keys d) revert_sysctl.

(** The namespace [parser.parse_args()] returns: one boolean per flag,
    stored under the names [try], [keep] and [revert]. *)
Record args := Args {
  arg_try : bool;
  arg_keep : bool;
  arg_revert : bool
}.

(** The body of [main], under a reading the source does not have.  Lines
    149, 163 and 166 spell the first flag [args.try]; [try] is a keyword,
    so these lines are not Python and the file as a whole does not
    compile (see [script]).  Here the three places are read as
    [getattr(args, "try")], written [arg_try a], which is the one reading
    that gives the function a behaviour; nothing else is changed.  What is
    proved of [main] is proved of this reading, not of a run of the
    repository's file.

    The two calls of [benchmark_system] and the timing tables printed
    from them are left out: they time three in-memory loops with the wall
    clock, run no command, and touch neither the file nor
    [original_values]; [stdout] therefore holds every printed line but
    those of the timing tables. *)
Definition main (a : args) : IO (result unit) :=
  cpu <-? get_cpu_info ;;
  mem <-? get_memory_info ;;
  net <-? get_network_settings ;;
  lift (
    let '(model, cores, smt) := cpu in
    print ("CPU Model: " +:+ model +:+ ", Cores: " +:+ Py.str_int cores
           +:+ ", SMT Enabled: " +:+ smt) ;;
    print ("Physical Memory: " +:+ Py.str_int (fst mem) +:+ " MB, User Memory: "
           +:+ Py.str_int (snd mem) +:+ " MB") ;;
    print ("TCP Send Space: " +:+ Py.str_int (fst net)
           +:+ ", TCP Receive Space: " +:+ Py.str_int (snd net)) ;;
    if arg_revert a then
      print (Py.nl +:+ "Reverting sysctl settings to original values...") ;;
      revert_loop
    else
      suggest_tweaks cpu mem net (arg_try a) (arg_keep a)).

(** The world when the interpreter is started on the file: nothing is
    printed, no command has run, and the table is empty (it is still
    empty once the module body has run [original_values = {}]). *)
Definition boot (k : kernel) (conf : string) : world :=
  World k conf [] [] [].

(** The reserved words of Python 3. *)
Definition keywords : list string :=
  [ "False"; "None"; "True"; "and"; "as"; "assert"; "async"; "await";
    "break"; "class"; "continue"; "def"; "del"; "elif"; "else"; "except";
    "finally"; "for"; "from"; "global"; "if"; "import"; "in"; "is";
    "lambda"; "nonlocal"; "not"; "or"; "pass"; "raise"; "return"; "try";
    "while"; "with"; "yield" ]%string.

(** The names [main] puts after [args.], in source order: lines 149, 155,
    163 (two of them) and 166. *)
Definition flag_lookups : list string :=
  [ "try"; "revert"; "try"; "keep"; "try" ]%string.

(** An attribute reference parses only if the name is not a keyword. *)
Definition compiles : bool :=
  forallb (fun name => negb (existsb (String.eqb name) keywords)) flag_lookups.

(** [python3 tweak.py] with the flags [a]: the file is compiled as a whole
    before its first statement runs, so either it compiles and the module
    body ends in the call of [main], or nothing runs at all. *)
Definition script (a : args) : IO (result unit) :=
  if compiles then main a else ret (Raise SyntaxError).

(** ** Notions used in the statements *)

(** The value [get_sysctl name] returns in world [w]. *)
Definition current (name : string) (w : world) : string :=
  fst (get_sysctl name w).

(** [sysctl -w] for each pair of [l], first to last. *)
Definition writes (l : list (string * string)) (k : kernel) : kernel :=
  fold_left (fun k '(n, v) => snd (exec (SysctlW n v) k)) l k.

(** The commands one round of the display loop runs. *)
Definition commands_of (try_flag : bool) (rec : string * Z) : list command :=
  SysctlN (fst rec) ::
    (if try_flag then [SysctlW (fst rec) (Py.str_int (snd rec))] else []).

(** The pair [sysctl -w] receives for a recommendation. *)
Definition assignment (rec : string * Z) : string * string :=
  (fst rec, Py.str_int (snd rec)).

(** The line [save_sysctl] writes for a recommendation. *)
Definition conf_line (rec : string * Z) : string :=
  fst rec +:+ "=" +:+ Py.str_int (snd rec) +:+ Py.nl.

(** The lines for a whole list, one after the other. *)
Definition conf_text (recs : list (string * Z)) : string :=
  fold_right (fun rec rest => conf_line rec +:+ rest) ""%string recs.

(** The pairs [revert_sysctl] writes when called on each of [names] in
    turn with table [d]: a name the table holds goes with its value, any
    other name is skipped. *)
Definition captured (d : Dict.t) (names : list string) : list (string * string) :=
  flat_map (fun n => match Dict.get d n with
                     | Some v => [(n, v)]
                     | None => []
                     end) names.

(** A table entry whose name and value the shell passes on as they are. *)
Definition plain_entry (p : string * string) : bool :=
  plain_name (fst p) && plain_value (snd p).

(** The command [set_sysctl] runs for a pair. *)
Definition write_of (p : string * string) : command :=
  SysctlW (fst p) (snd p).

(** [w'] differs from [w] by reads and printed lines at most: same kernel,
    same file, same table, and no further [sysctl -w] in the shell log. *)
Definition only_reads (w w' : world) : Prop :=
  kern w' = kern w
  /\ sysctl_conf w' = sysctl_conf w
  /\ original_values w' = original_values w
  /\ List.filter is_write (shell w') = List.filter is_write (shell w).

(** A computation that only ever reads and prints. *)
Definition quiet {A} (m : IO A) : Prop := forall w, only_reads w (run m w).

(** The number a digit sequence denotes, read left to right from [acc]. *)
Fixpoint uint_value (d : Decimal.uint) (acc : Z) : Z :=
  match d with
  | Decimal.Nil => acc
  | Decimal.D0 d => uint_value d (10 * acc + 0)
  | Decimal.D1 d => uint_value d (10 * acc + 1)
  | Decimal.D2 d => uint_value d (10 * acc + 2)
  | Decimal.D3 d => uint_value d (10 * acc + 3)
  | Decimal.D4 d => uint_value d (10 * acc + 4)
  | Decimal.D5 d => uint_value d (10 * acc + 5)
  | Decimal.D6 d => uint_value d (10 * acc + 6)
  | Decimal.D7 d => uint_value d (10 * acc + 7)
  | Decimal.D8 d => uint_value d (10 * acc + 8)
  | Decimal.D9 d => uint_value d (10 * acc + 9)
  end.

(** The text [get_sysctl name] returns on kernel [k]. *)
Definition reading (k : kernel) (name : string) : string :=
  Py.strip (proc_stdout (fst (exec (SysctlN name) k))).

(** The seven rows of the rule table of [suggest_tweaks], top to bottom. *)
Definition rule_order : list (string * Z) :=
  [ ("kern.sched.quantum", 10); ("hw.smt", 0); ("kern.maxvnodes", 250000);
    ("kern.bufcachepercent", 15); ("net.inet.tcp.sendspace", 65536);
    ("net.inet.tcp.recvspace", 65536); ("kern.somaxconn", 1024) ]%string.

(** The line the display loop prints for a recommendation on kernel [k]. *)
Definition display_line (k : kernel) (rec : string * Z) : string :=
  "- " +:+ fst rec +:+ ": Current = " +:+ reading k (fst rec)
  +:+ ", Suggested = " +:+ Py.str_int (snd rec).

(** The line [set_sysctl] prints for a write of [p] on kernel [k]. *)
Definition report_line (k : kernel) (p : string * string) : string :=
  "Setting " +:+ fst p +:+ " to " +:+ snd p +:+ ": "
  +:+ (if decide (fst p ∈ refused k) then "Failed" else "Success").

(** World [w] after [get_sysctl] has been called on each of [names]: the
    shell log has grown by the reads, nothing else has changed. *)
Definition asked (names : list string) (w : world) : world :=
  World (kern w) (sysctl_conf w) (original_values w) (stdout w)
        (shell w ++ map SysctlN names).

(** The table entry the apply loop makes for a recommendation on kernel
    [k]: the name with its reading. *)
Definition capture (k : kernel) (rec : string * Z) : string * string :=
  (fst rec, reading k (fst rec)).

(** The two lines the apply loop prints for a recommendation. *)
Definition transcript (k : kernel) (rec : string * Z) : list string :=
  [ display_line k rec; report_line k (assignment rec) ].

(** [k0] and [k] refuse the same names and agree on the names of [recs]. *)
Definition agree_on (recs : list (string * Z)) (k0 k : kernel) : Prop :=
  refused k0 = refused k
  /\ forall n, In n (map fst recs) -> tunables k0 !! n = tunables k !! n.

(** ** Sample data *)

(** A four-core machine with 8 GB of memory and default TCP buffers, on
    which [hw.smt] is read-only. *)
Definition sample_kernel : kernel :=
  Kernel (list_to_map
            [ ("hw.model", "Intel(R) Core(TM) i5"); ("hw.ncpu", "4");
              ("hw.smt", "1"); ("hw.physmem", "8589934592");
              ("hw.usermem", "6291456000");
              ("net.inet.tcp.sendspace", "16384");
              ("net.inet.tcp.recvspace", "16384");
              ("kern.maxvnodes", "1000"); ("kern.somaxconn", "128") ]%string)
         {["hw.smt"%string]}.

Definition sample_world : world := boot sample_kernel "# sysctl.conf"%string.

(** The same machine in the middle of a session: two values changed, their
    former values in the table. *)
Definition sample_world_applied : world :=
  World (Kernel (<["kern.somaxconn"%string := "1024"%string]>
                   (<["kern.maxvnodes"%string := "250000"%string]>
                      (tunables sample_kernel)))
                (refused sample_kernel))
        "# sysctl.conf"%string
        [ ("kern.maxvnodes", "1000"); ("kern.somaxconn", "128") ]%string
        [] [].

(** The words of [s], cut at blanks. *)
Fixpoint operands (s : string) : list string :=
  match s with
  | EmptyString => [EmptyString]
  | String c s' =>
      if Ascii.eqb c " "
      then EmptyString :: operands s'
      else match operands s' with
           | word :: rest => String c word :: rest
           | [] => [String c EmptyString]
           end
  end.

(** A shell that splits the text of a write at blanks, and a [sysctl] that
    takes each word as one assignment, as [sysctl(8)] does when it is
    given several operands. *)
Definition several_operands (text : string) (t : gmap string string)
    : completed * gmap string string :=
  match strip_prefix "sysctl -w " text with
  | Some rest =>
      fold_left
        (fun '(r, t) word =>
           match split_assignment word with
           | Some (n, v) =>
               if plain_name n && plain_value v
               then (r, <[n:=v]> t)
               else (Completed "" 1, t)
           | None => (Completed "" 1, t)
           end)
        (operands rest) (Completed "" 0, t)
  | None => (Completed "" 2, t)
  end.

(** A table holding a value with a blank in it, on a kernel behind that
    shell. *)
Definition sample_world_unquoted : world :=
  World (MkKernel (<["kern.somaxconn"%string := "1024"%string]>
                     (<["kern.maxvnodes"%string := "250000"%string]> ∅))
                  ∅ several_operands)
        ""%string
        [ ("kern.somaxconn", "128 kern.maxvnodes=7") ]%string
        [] [].

(** * Properties *)

(** ** Python text *)

Example str_int_250000 : Py.str_int 250000 = "250000".
Proof. reflexivity. Qed.

Example str_int_neg : Py.str_int (-15) = "-15" /\ Py.str_int 0 = "0".
Proof. split; reflexivity. Qed.

Example int_examples :
  Py.int "4" = Some 4 /\ Py.int "-12" = Some (-12) /\ Py.int "1_000" = Some 1000
  /\ Py.int "" = None /\ Py.int "1__0" = None /\ Py.int "8 " = Some 8
  /\ Py.int "_1" = None /\ Py.int "1_" = None /\ Py.int "007" = Some 7
  /\ Py.int "+-1" = None /\ Py.int "4x" = None.
Proof. repeat split; reflexivity. Qed.

Example strip_examples :
  Py.strip (" a b " +:+ Py.nl) = "a b" /\ Py.strip "   " = "" /\ Py.strip "" = "".
Proof. repeat split; reflexivity. Qed.

(** ** The rule table *)

Section Rules.

Variables (model smt : string) (cores physmem usermem : Z).
Variables (tcp_sendspace tcp_recvspace : Z).

Let recs : list (string * Z) :=
  recommendations (model, cores, smt) (physmem, usermem)
                  (tcp_sendspace, tcp_recvspace).

(** Which pairs the list holds: one disjunct per row of the rule table. *)
Lemma recommendations_In (r : string * Z) :
  In r recs <->
     (r = ("kern.sched.quantum", 10) /\ cores > 2)
  \/ (r = ("hw.smt", 0) /\ smt = "1"%string)
  \/ (r = ("kern.maxvnodes", 250000) /\ physmem >= 4096)
  \/ (r = ("kern.bufcachepercent", 15) /\ physmem < 4096)
  \/ (r = ("net.inet.tcp.sendspace", 65536) /\ tcp_sendspace < 65536)
  \/ (r = ("net.inet.tcp.recvspace", 65536) /\ tcp_recvspace < 65536)
  \/ r = ("kern.somaxconn", 1024).
Proof.
  unfold recs, recommendations.
  destruct (Z.gtb_spec cores 2);
  destruct (String.eqb_spec smt "1");
  destruct (Z.geb_spec physmem 4096);
  destruct (Z.ltb_spec tcp_sendspace 65536);
  destruct (Z.ltb_spec tcp_recvspace 65536);
  cbn [app In]; intuition (try lia; try congruence).
Qed.

(** The names in the list are pairwise distinct, whatever the readings. *)
Lemma recommendations_names_NoDup : NoDup (map fst recs).
Proof.
  unfold recs, recommendations.
  destruct (cores >? 2), (String.eqb smt "1"), (physmem >=? 4096),
    (tcp_sendspace <? 65536), (tcp_recvspace <? 65536);
  cbn [app map fst]; apply NoDup_ListNoDup;
  repeat (constructor; [cbn [In]; intuition discriminate|]); constructor.
Qed.

End Rules.

(** The names in the list are plain text, whatever the readings. *)
Lemma recommendations_plain
    (cpu : cpu_info) (mem : memory_info) (net : network_settings) :
  Forall (fun rec => plain_name (fst rec) = true) (recommendations cpu mem net).
Proof.
  destruct cpu as [[model cores] smt], mem as [physmem usermem],
    net as [snd_sp rcv_sp].
  apply Forall_forall. intros [n v] Hin. apply list_elem_of_In in Hin.
  apply recommendations_In in Hin. cbn [fst].
  intuition idtac;
    match goal with H : (_, _) = (_, _) |- _ => injection H as -> -> end;
    reflexivity.
Qed.

(** C1: with four cores, SMT reading "1", 8192 MB of physical and 6000 MB of
    user memory, and both TCP buffers at 16384, the advisor's list is
    quantum=10, smt=0, maxvnodes=250000, sendspace=65536, recvspace=65536,
    somaxconn=1024, in that order; the CPU model string plays no part. *)
Theorem scenario_large_machine (model : string) :
  recommendations (model, 4, "1"%string) (8192, 6000) (16384, 16384)
  = [ ("kern.sched.quantum", 10);
      ("hw.smt", 0);
      ("kern.maxvnodes", 250000);
      ("net.inet.tcp.sendspace", 65536);
      ("net.inet.tcp.recvspace", 65536);
      ("kern.somaxconn", 1024) ].
Proof. reflexivity. Qed.

(** The companion scenario of the specification: a small machine gets the
    buffer-cache rule and the backlog rule only. *)
Example scenario_small_machine (model : string) (usermem : Z) :
  recommendations (model, 1, "0"%string) (2048, usermem) (65536, 65536)
  = [ ("kern.bufcachepercent", 15); ("kern.somaxconn", 1024) ].
Proof. reflexivity. Qed.

(** C4: exactly one of the two memory recommendations is in the list:
    maxvnodes=250000 iff physical memory is at least 4096 MB,
    bufcachepercent=15 iff it is below; never both, never neither. *)
Theorem memory_rules_partition
    (cpu : cpu_info) (physmem usermem : Z) (net : network_settings) :
  let recs := recommendations cpu (physmem, usermem) net in
  let raise_vnodes := In ("kern.maxvnodes", 250000) recs in
  let lower_bufcache := In ("kern.bufcachepercent", 15) recs in
  (raise_vnodes <-> physmem >= 4096)
  /\ (lower_bufcache <-> physmem < 4096)
  /\ ~ (raise_vnodes /\ lower_bufcache)
  /\ (raise_vnodes \/ lower_bufcache).
Proof.
  destruct cpu as [[model cores] smt], net as [snd_sp rcv_sp]. cbv zeta.
  rewrite !recommendations_In.
  repeat split; intros; intuition (try congruence; try lia).
  destruct (Z.lt_ge_cases physmem 4096); [right | left];
    intuition (try lia).
Qed.

(** C5: sendspace=65536 is in the list iff the send reading is below 65536,
    recvspace=65536 iff the receive reading is below 65536; neither test
    looks at the other reading, and some input has both in the list. *)
Theorem tcp_rules_independent :
  (forall (cpu : cpu_info) (mem : memory_info) (s r : Z),
      (In ("net.inet.tcp.sendspace", 65536) (recommendations cpu mem (s, r))
       <-> s < 65536)
      /\ (In ("net.inet.tcp.recvspace", 65536) (recommendations cpu mem (s, r))
          <-> r < 65536))
  /\ (exists cpu mem net,
        In ("net.inet.tcp.sendspace", 65536) (recommendations cpu mem net)
        /\ In ("net.inet.tcp.recvspace", 65536) (recommendations cpu mem net)).
Proof.
  split.
  - intros [[model cores] smt] [physmem usermem] s r.
    rewrite !recommendations_In.
    split; intuition (try congruence; try lia).
  - exists (""%string, 1, "0"%string), (2048, 2048), (16384, 16384).
    cbn. intuition.
Qed.

(** C6: quantum=10 is in the list iff the core count exceeds 2. With two
    cores or fewer no entry of the list even carries that name. *)
Theorem quantum_rule
    (model smt : string) (cores : Z) (mem : memory_info)
    (net : network_settings) :
  let recs := recommendations (model, cores, smt) mem net in
  (In ("kern.sched.quantum", 10) recs <-> cores > 2)
  /\ (In "kern.sched.quantum"%string (map fst recs) <-> cores > 2).
Proof.
  destruct mem as [physmem usermem], net as [snd_sp rcv_sp]. cbv zeta.
  split.
  - rewrite recommendations_In. intuition (try congruence; try lia).
  - rewrite in_map_iff. split.
    + intros [[n v] [Hn Hin]]. cbn in Hn. subst n.
      apply recommendations_In in Hin.
      intuition (try congruence; try lia).
    + intros Hc. exists ("kern.sched.quantum"%string, 10). split; [done|].
      apply recommendations_In. auto.
Qed.

(** C7: smt=0 is in the list iff the SMT reading is the string "1", the
    value the script compares with; under any other reading no entry of the
    list carries the name hw.smt. *)
Theorem smt_rule
    (model smt : string) (cores : Z) (mem : memory_info)
    (net : network_settings) :
  let recs := recommendations (model, cores, smt) mem net in
  (In ("hw.smt", 0) recs <-> smt = "1"%string)
  /\ (In "hw.smt"%string (map fst recs) <-> smt = "1"%string).
Proof.
  destruct mem as [physmem usermem], net as [snd_sp rcv_sp]. cbv zeta.
  split.
  - rewrite recommendations_In. intuition (try congruence; try lia).
  - rewrite in_map_iff. split.
    + intros [[n v] [Hn Hin]]. cbn in Hn. subst n.
      apply recommendations_In in Hin.
      intuition (try congruence; try lia).
    + intros Hc. exists ("hw.smt"%string, 0). split; [done|].
      apply recommendations_In. auto.
Qed.

(** The backlog rule fires on every input. *)
Lemma somaxconn_always
    (cpu : cpu_info) (mem : memory_info) (net : network_settings) :
  In ("kern.somaxconn", 1024) (recommendations cpu mem net).
Proof.
  destruct cpu as [[model cores] smt], mem as [physmem usermem],
    net as [snd_sp rcv_sp].
  apply recommendations_In. tauto.
Qed.

(** C10: two runs whose readings differ in the CPU model string and in the
    user-memory value only get the same list, and [suggest_tweaks] then
    acts the same on the same world. *)
Theorem advisor_ignores_model_and_usermem
    (model model' smt : string) (cores physmem usermem usermem' : Z)
    (net : network_settings) :
  recommendations (model, cores, smt) (physmem, usermem) net
  = recommendations (model', cores, smt) (physmem, usermem') net
  /\ forall (try_flag keep_flag : bool) (w : world),
       suggest_tweaks (model, cores, smt) (physmem, usermem) net
                      try_flag keep_flag w
       = suggest_tweaks (model', cores, smt) (physmem, usermem') net
                        try_flag keep_flag w.
Proof.
  assert (E : recommendations (model, cores, smt) (physmem, usermem) net
              = recommendations (model', cores, smt) (physmem, usermem') net)
    by (destruct net; reflexivity).
  split; [exact E|].
  intros. unfold suggest_tweaks. rewrite E. reflexivity.
Qed.

(** ** What one call does to the world *)

Lemma run_bind {A B} (m : IO A) (f : A -> IO B) (w : world) :
  run (x <- m ;; f x) w = run (f (fst (m w))) (run m w).
Proof. unfold run, bind. by destruct (m w). Qed.

Lemma run_ret {A} (a : A) (w : world) : run (ret a) w = w.
Proof. reflexivity. Qed.

Lemma exec_read (name : string) (k : kernel) :
  snd (exec (SysctlN name) k) = k.
Proof. cbn. by destruct (tunables k !! name). Qed.

(** *** The shell on the script's command texts *)

Lemma strip_prefix_app (p s : string) : strip_prefix p (p +:+ s) = Some s.
Proof.
  induction p as [|a p IH]; [by destruct s|].
  change (String a p +:+ s) with (String a (p +:+ s)). cbn.
  by rewrite Ascii.eqb_refl.
Qed.

Lemma split_assignment_plain (n v : string) :
  all_chars name_char n = true ->
  split_assignment (n +:+ "=" +:+ v) = Some (n, v).
Proof.
  induction n as [|c n IH]; intros Hn.
  - reflexivity.
  - change (String c n +:+ "=" +:+ v) with (String c (n +:+ "=" +:+ v)).
    cbn in Hn |- *. apply andb_true_iff in Hn as [Hc Hn].
    rewrite (IH Hn).
    destruct (Ascii.eqb_spec c "=") as [->|_]; [discriminate | done].
Qed.

(** The text built from a plain name reads back as the same command. *)
Lemma parse_read (n : string) :
  plain_name n = true -> parse (command_line (SysctlN n)) = Some (SysctlN n).
Proof.
  intros Hn. unfold parse, command_line.
  by rewrite strip_prefix_app, Hn.
Qed.

Lemma parse_write (n v : string) :
  plain_name n = true -> plain_value v = true ->
  parse (command_line (SysctlW n v)) = Some (SysctlW n v).
Proof.
  intros Hn Hv. unfold parse, command_line.
  change (strip_prefix "sysctl -n " ("sysctl -w " +:+ n +:+ "=" +:+ v))
    with (@None string).
  rewrite strip_prefix_app, split_assignment_plain, Hn, Hv; [done|].
  by destruct n.
Qed.

Lemma sh_read (n : string) (k : kernel) :
  plain_name n = true -> sh (command_line (SysctlN n)) k = exec (SysctlN n) k.
Proof. intros Hn. unfold sh. by rewrite parse_read. Qed.

Lemma sh_write (n v : string) (k : kernel) :
  plain_name n = true -> plain_value v = true ->
  sh (command_line (SysctlW n v)) k = exec (SysctlW n v) k.
Proof. intros Hn Hv. unfold sh. by rewrite parse_write. Qed.

(** Whatever the text, the shell leaves the refused names as they are. *)
Lemma sh_refused (text : string) (k : kernel) :
  refused (snd (sh text k)) = refused k.
Proof.
  unfold sh. destruct (parse text) as [[n|n v]|].
  - by rewrite exec_read.
  - cbn. by destruct (decide (n ∈ refused k)).
  - by destruct (other k text (tunables k)).
Qed.

Lemma string_of_uint_plain (d : Decimal.uint) :
  all_chars value_char (NilEmpty.string_of_uint d) = true.
Proof. induction d; cbn; done. Qed.

(** A number printed by [str] is plain text. *)
Lemma str_int_plain (n : Z) : plain_value (Py.str_int n) = true.
Proof.
  unfold Py.str_int. destruct n as [|p|p]; [reflexivity| |];
    cbn [Z.to_int NilZero.string_of_int];
    pose proof (DecimalPos.Unsigned.to_uint_nonnil p) as Hp;
    pose proof (string_of_uint_plain (Pos.to_uint p)) as Hd.
  - destruct (Pos.to_uint p); done.
  - assert (NilZero.string_of_uint (Pos.to_uint p)
            = NilEmpty.string_of_uint (Pos.to_uint p)) as ->
      by (by destruct (Pos.to_uint p)).
    cbn. exact Hd.
Qed.

(** *** The script's two calls of [sysctl] *)

Lemma get_sysctl_called (name : string) (w : world) :
  run (get_sysctl name) w
  = World (snd (sh (command_line (SysctlN name)) (kern w)))
          (sysctl_conf w) (original_values w) (stdout w)
          (shell w ++ [SysctlN name]).
Proof.
  unfold get_sysctl, run_command. rewrite run_bind, run_ret.
  unfold run, subprocess_run.
  by destruct (sh (command_line (SysctlN name)) (kern w)) as [r k].
Qed.

Lemma set_sysctl_called (name : string) (value : Py.value) (w : world) :
  run (set_sysctl name value) w
  = World (snd (sh (command_line (SysctlW name (Py.format value))) (kern w)))
          (sysctl_conf w) (original_values w)
          (stdout w ++
             ["Setting " +:+ name +:+ " to " +:+ Py.format value +:+ ": "
              +:+ (if returncode
                        (fst (sh (command_line
                                    (SysctlW name (Py.format value)))
                                 (kern w)))
                      =? 0
                   then "Success" else "Failed")])
          (shell w ++ [SysctlW name (Py.format value)]).
Proof.
  unfold set_sysctl. rewrite run_bind.
  unfold run, subprocess_run, print.
  by destruct (sh (command_line (SysctlW name (Py.format value))) (kern w))
    as [r k].
Qed.

Lemma get_sysctl_world (name : string) (w : world) :
  plain_name name = true ->
  run (get_sysctl name) w
  = World (kern w) (sysctl_conf w) (original_values w) (stdout w)
          (shell w ++ [SysctlN name]).
Proof.
  intros Hn. by rewrite get_sysctl_called, sh_read, exec_read.
Qed.

Lemma set_sysctl_world (name : string) (value : Py.value) (w : world) :
  plain_name name = true -> plain_value (Py.format value) = true ->
  run (set_sysctl name value) w
  = World (snd (exec (SysctlW name (Py.format value)) (kern w)))
          (sysctl_conf w) (original_values w)
          (stdout w ++
             ["Setting " +:+ name +:+ " to " +:+ Py.format value +:+ ": "
              +:+ (if returncode
                        (fst (exec (SysctlW name (Py.format value)) (kern w)))
                      =? 0
                   then "Success" else "Failed")])
          (shell w ++ [SysctlW name (Py.format value)]).
Proof.
  intros Hn Hv. by rewrite set_sysctl_called, sh_write.
Qed.

(** The loop body, statement by statement. *)
Lemma suggest_one_world
    (try_flag keep_flag : bool) (name : string) (value : Z) (w : world) :
  run (suggest_one try_flag keep_flag (name, value)) w
  = let cur := current name w in
    let w1 := run (get_sysctl name) w in
    let w2 := run (print ("- " +:+ name +:+ ": Current = " +:+ cur
                          +:+ ", Suggested = " +:+ Py.str_int value)) w1 in
    if try_flag then
      let w3 := if Dict.contains (original_values w2) name then w2
                else run (store_original_value name cur) w2 in
      let w4 := run (set_sysctl name (Py.Int value)) w3 in
      if keep_flag then run (save_sysctl name (Py.Int value)) w4 else w4
    else w2.
Proof.
  unfold suggest_one, current. cbv beta iota. rewrite !run_bind. cbv zeta.
  destruct try_flag; [|reflexivity].
  rewrite !run_bind.
  set (w2 := run (print _) _).
  change (run read_original_values w2) with w2.
  change (fst (read_original_values w2)) with (original_values w2).
  destruct (Dict.contains (original_values w2) name); cbn [negb];
    rewrite ?run_ret; by destruct keep_flag.
Qed.

Section SuggestOne.

Variables (try_flag keep_flag : bool) (name : string) (value : Z) (w : world).

Let w' : world := run (suggest_one try_flag keep_flag (name, value)) w.

Ltac world_fields :=
  rewrite ?set_sysctl_called, ?get_sysctl_called;
  cbn [run snd print save_sysctl store_original_value shell kern sysctl_conf
       original_values stdout andb negb Py.format].

Ltac step_fields :=
  unfold w'; rewrite suggest_one_world; cbv zeta;
  destruct try_flag, keep_flag; world_fields;
  try (destruct (Dict.contains (original_values w) name); world_fields).

Lemma suggest_one_shell :
  shell w' = shell w ++ SysctlN name ::
               (if try_flag then [SysctlW name (Py.str_int value)] else []).
Proof. step_fields; by rewrite <- ?app_assoc. Qed.

Lemma suggest_one_kern :
  plain_name name = true ->
  kern w' = if try_flag
            then snd (exec (SysctlW name (Py.str_int value)) (kern w))
            else kern w.
Proof.
  intros Hn. step_fields;
    rewrite ?(sh_read _ _ Hn), ?exec_read,
            ?(sh_write _ _ _ Hn (str_int_plain value));
    done.
Qed.

Lemma suggest_one_conf :
  sysctl_conf w'
  = if try_flag && keep_flag
    then sysctl_conf w +:+ (name +:+ "=" +:+ Py.str_int value +:+ Py.nl)
    else sysctl_conf w.
Proof. step_fields; done. Qed.

Lemma suggest_one_original_values :
  original_values w'
  = if try_flag && negb (Dict.contains (original_values w) name)
    then Dict.set (original_values w) name (current name w)
    else original_values w.
Proof. step_fields; done. Qed.

End SuggestOne.

(** ** The dictionary *)

Module DictFacts.

Lemma contains_get (d : Dict.t) (k : string) :
  Dict.contains d k = true <-> exists v, Dict.get d k = Some v.
Proof.
  unfold Dict.contains. destruct (Dict.get d k) as [v|]; split.
  - eauto.
  - reflexivity.
  - discriminate.
  - intros [v Hv]. discriminate.
Qed.

Lemma get_set (d : Dict.t) (k v n : string) :
  Dict.get (Dict.set d k v) n
  = if String.eqb n k then Some v else Dict.get d n.
Proof.
  induction d as [|[k' v'] d IH]; cbn.
  - reflexivity.
  - destruct (String.eqb_spec k k') as [->|Hk]; cbn.
    + by destruct (String.eqb n k').
    + rewrite IH. destruct (String.eqb_spec n k') as [->|Hn]; [|done].
      destruct (String.eqb_spec k' k); congruence.
Qed.

Lemma get_None (d : Dict.t) (k : string) :
  Dict.get d k = None <-> ~ In k (Dict.keys d).
Proof.
  induction d as [|[k' v'] d IH]; cbn.
  - tauto.
  - destruct (String.eqb_spec k k') as [->|Hk].
    + split; [discriminate | tauto].
    + rewrite IH. intuition congruence.
Qed.

Lemma keys_set (d : Dict.t) (k v : string) :
  Dict.keys (Dict.set d k v)
  = if Dict.contains d k then Dict.keys d else Dict.keys d ++ [k].
Proof.
  unfold Dict.contains, Dict.keys.
  induction d as [|[k' v'] d IH]; cbn.
  - reflexivity.
  - destruct (String.eqb_spec k k') as [->|Hk]; cbn; [done|].
    rewrite IH. by destruct (Dict.get d k).
Qed.

(** Keys stay pairwise distinct under item assignment. *)
Lemma keys_set_NoDup (d : Dict.t) (k v : string) :
  NoDup (Dict.keys d) -> NoDup (Dict.keys (Dict.set d k v)).
Proof.
  intros Hd. rewrite keys_set.
  destruct (Dict.contains d k) eqn:Hc; [done|].
  apply NoDup_app. split_and!; [done| |apply NoDup_singleton].
  intros x Hx Hk. apply list_elem_of_singleton in Hk. subst x.
  assert (Dict.get d k = None) as Hn
    by (unfold Dict.contains in Hc; by destruct (Dict.get d k)).
  apply get_None in Hn. apply Hn. by apply list_elem_of_In.
Qed.

(** With distinct keys, [get] finds exactly the items of the list. *)
Lemma get_Some_In (d : Dict.t) (k v : string) :
  NoDup (Dict.keys d) -> Dict.get d k = Some v <-> In (k, v) d.
Proof.
  induction d as [|[k' v'] d IH]; cbn; intros Hd.
  - split; [discriminate | tauto].
  - apply NoDup_cons in Hd as [Hk' Hd].
    destruct (String.eqb_spec k k') as [->|Hk].
    + split.
      * intros [= ->]. by left.
      * intros [[= ->]|Hin]; [done|].
        exfalso. apply Hk'. apply list_elem_of_In.
        change k' with (fst (k', v)). by apply in_map.
    + rewrite (IH Hd). split; [tauto|].
      intros [[= -> ->]|Hin]; [congruence | done].
Qed.

End DictFacts.

(** ** Writes on the kernel *)

Lemma exec_write_refused (n v : string) (k : kernel) :
  refused (snd (exec (SysctlW n v) k)) = refused k.
Proof. cbn. by destruct (decide (n ∈ refused k)). Qed.

Lemma exec_write_lookup (n v m : string) (k : kernel) :
  tunables (snd (exec (SysctlW n v) k)) !! m
  = if decide (m = n /\ n ∉ refused k) then Some v else tunables k !! m.
Proof.
  cbn. destruct (decide (n ∈ refused k)) as [Hr|Hr]; cbn.
  - rewrite decide_False; [done | tauto].
  - destruct (decide (m = n)) as [->|Hm].
    + rewrite decide_True; [|done]. apply lookup_insert_eq.
    + rewrite decide_False; [|tauto]. by apply lookup_insert_ne.
Qed.

Lemma writes_cons (n v : string) (l : list (string * string)) (k : kernel) :
  writes ((n, v) :: l) k = writes l (snd (exec (SysctlW n v) k)).
Proof. reflexivity. Qed.

Lemma writes_refused (l : list (string * string)) (k : kernel) :
  refused (writes l k) = refused k.
Proof.
  revert k. induction l as [|[n v] l IH]; intros k; [done|].
  by rewrite writes_cons, IH, exec_write_refused.
Qed.

(** A name that is not written keeps its value. *)
Lemma writes_other (l : list (string * string)) (k : kernel) (m : string) :
  ~ In m (map fst l) -> tunables (writes l k) !! m = tunables k !! m.
Proof.
  revert k. induction l as [|[n v] l IH]; intros k Hm; [done|].
  cbn [map fst In] in Hm. rewrite writes_cons, IH by tauto.
  rewrite exec_write_lookup, decide_False; [done|]. intuition congruence.
Qed.

(** A name the kernel refuses keeps its value. *)
Lemma writes_refused_name (l : list (string * string)) (k : kernel) (m : string) :
  m ∈ refused k -> tunables (writes l k) !! m = tunables k !! m.
Proof.
  revert k. induction l as [|[n v] l IH]; intros k Hm; [done|].
  rewrite writes_cons, IH by (by rewrite exec_write_refused).
  rewrite exec_write_lookup, decide_False; [done|].
  intros [-> Hn]. by apply Hn.
Qed.

(** A name written once, and accepted, holds the value written. *)
Lemma writes_accepted (l : list (string * string)) (k : kernel) (m v : string) :
  NoDup (map fst l) -> In (m, v) l -> m ∉ refused k ->
  tunables (writes l k) !! m = Some v.
Proof.
  revert k. induction l as [|[n v'] l IH]; intros k Hl Hin Hm; [done|].
  cbn [map fst] in Hl. apply NoDup_cons in Hl as [Hn Hl].
  rewrite writes_cons. destruct Hin as [[= -> ->]|Hin].
  - rewrite writes_other.
    + rewrite exec_write_lookup, decide_True; done.
    + intros Hin. apply Hn. by apply list_elem_of_In.
  - apply IH; [done..|]. by rewrite exec_write_refused.
Qed.

(** ** Loops *)

Lemma for_each_cons {A} (x : A) (l : list A) (body : A -> IO unit) (w : world) :
  run (for_each (x :: l) body) w = run (for_each l body) (run (body x) w).
Proof. cbn [for_each]. apply run_bind. Qed.

Lemma for_each_app {A} (l1 l2 : list A) (body : A -> IO unit) (w : world) :
  run (for_each (l1 ++ l2) body) w
  = run (for_each l2 body) (run (for_each l1 body) w).
Proof.
  revert w. induction l1 as [|x l1 IH]; intros w; [done|].
  cbn [app]. by rewrite !for_each_cons, IH.
Qed.

Lemma append_assoc (a b c : string) : (a +:+ b) +:+ c = a +:+ (b +:+ c).
Proof.
  induction a as [|x a IH]; [reflexivity|].
  change (String x ((a +:+ b) +:+ c) = String x (a +:+ (b +:+ c))).
  by rewrite IH.
Qed.

Lemma append_empty_r (a : string) : a +:+ "" = a.
Proof.
  induction a as [|x a IH]; [reflexivity|].
  change (String x (a +:+ "") = String x a). by rewrite IH.
Qed.

Section SuggestLoop.

Variables (try_flag keep_flag : bool).

Lemma suggest_loop_shell (recs : list (string * Z)) (w : world) :
  shell (run (suggest_loop try_flag keep_flag recs) w)
  = shell w ++ flat_map (commands_of try_flag) recs.
Proof.
  unfold suggest_loop. revert w.
  induction recs as [|[n v] recs IH]; intros w.
  - cbn. by rewrite app_nil_r.
  - rewrite for_each_cons, IH, suggest_one_shell.
    cbn [flat_map]. unfold commands_of at 2. cbn [fst snd].
    by rewrite <- app_assoc.
Qed.

Lemma suggest_loop_kern (recs : list (string * Z)) (w : world) :
  Forall (fun rec => plain_name (fst rec) = true) recs ->
  kern (run (suggest_loop try_flag keep_flag recs) w)
  = if try_flag then writes (map assignment recs) (kern w) else kern w.
Proof.
  unfold suggest_loop. revert w.
  induction recs as [|[n v] recs IH]; intros w Hp.
  - cbn. by destruct try_flag.
  - apply Forall_cons in Hp as [Hn Hp].
    rewrite for_each_cons, IH, suggest_one_kern by done.
    by destruct try_flag.
Qed.

Lemma suggest_loop_conf (recs : list (string * Z)) (w : world) :
  sysctl_conf (run (suggest_loop try_flag keep_flag recs) w)
  = if try_flag && keep_flag
    then sysctl_conf w +:+ conf_text recs
    else sysctl_conf w.
Proof.
  unfold suggest_loop. revert w.
  induction recs as [|[n v] recs IH]; intros w.
  - cbn. destruct (try_flag && keep_flag); by rewrite ?append_empty_r.
  - rewrite for_each_cons, IH, suggest_one_conf.
    destruct (try_flag && keep_flag); [|done].
    cbn [conf_text fold_right]. unfold conf_line at 2. cbn [fst snd].
    by rewrite append_assoc.
Qed.

(** One round never replaces a value the table already holds. *)
Lemma suggest_one_keeps (rec : string * Z) (w : world) (name v : string) :
  Dict.get (original_values w) name = Some v ->
  Dict.get (original_values (run (suggest_one try_flag keep_flag rec) w)) name
  = Some v.
Proof.
  destruct rec as [n val]. intros Hget.
  rewrite suggest_one_original_values.
  destruct (try_flag && negb (Dict.contains (original_values w) n)) eqn:Hc;
    [|done].
  apply andb_true_iff in Hc as [_ Hc]. apply negb_true_iff in Hc.
  rewrite DictFacts.get_set.
  destruct (String.eqb_spec name n) as [->|Hn]; [|done].
  assert (Dict.contains (original_values w) n = true) as Hc'
    by (apply DictFacts.contains_get; eauto).
  congruence.
Qed.

Lemma suggest_loop_keeps (recs : list (string * Z)) (w : world) (name v : string) :
  Dict.get (original_values w) name = Some v ->
  Dict.get (original_values (run (suggest_loop try_flag keep_flag recs) w)) name
  = Some v.
Proof.
  unfold suggest_loop. revert w.
  induction recs as [|rec recs IH]; intros w Hget; [done|].
  rewrite for_each_cons. by apply IH, suggest_one_keeps.
Qed.

(** Rounds for other names leave a name out of the table. *)
Lemma suggest_loop_absent (recs : list (string * Z)) (w : world) (name : string) :
  Dict.get (original_values w) name = None ->
  ~ In name (map fst recs) ->
  Dict.get (original_values (run (suggest_loop try_flag keep_flag recs) w)) name
  = None.
Proof.
  unfold suggest_loop. revert w.
  induction recs as [|[n val] recs IH]; intros w Hget Hin; [done|].
  cbn in Hin. rewrite for_each_cons. apply IH; [|tauto].
  rewrite suggest_one_original_values.
  destruct (try_flag && negb (Dict.contains (original_values w) n)); [|done].
  rewrite DictFacts.get_set.
  destruct (String.eqb_spec name n) as [->|Hn]; [tauto | done].
Qed.

(** The keys of the table stay pairwise distinct. *)
Lemma suggest_loop_NoDup (recs : list (string * Z)) (w : world) :
  NoDup (Dict.keys (original_values w)) ->
  NoDup (Dict.keys (original_values
                      (run (suggest_loop try_flag keep_flag recs) w))).
Proof.
  unfold suggest_loop. revert w.
  induction recs as [|[n val] recs IH]; intros w Hd; [done|].
  rewrite for_each_cons. apply IH. rewrite suggest_one_original_values.
  destruct (try_flag && negb (Dict.contains (original_values w) n)); [|done].
  by apply DictFacts.keys_set_NoDup.
Qed.

End SuggestLoop.

(** ** The revert loop *)

Lemma revert_sysctl_world (name : string) (w : world) :
  run (revert_sysctl name) w
  = match Dict.get (original_values w) name with
    | Some v => run (set_sysctl name (Py.Str v)) w
    | None => w
    end.
Proof.
  unfold revert_sysctl. rewrite run_bind.
  change (run read_original_values w) with w.
  change (fst (read_original_values w)) with (original_values w).
  by destruct (Dict.get (original_values w) name).
Qed.

(** Reverting a list of names: the table and the file stay as they are,
    and the shell is handed the captured pairs and nothing else. *)
Lemma revert_names_world (names : list string) (w : world) :
  let d := original_values w in
  let w' := run (for_each names revert_sysctl) w in
  original_values w' = d
  /\ sysctl_conf w' = sysctl_conf w
  /\ shell w' = shell w ++ map write_of (captured d names).
Proof.
  cbv zeta. revert w. induction names as [|n names IH]; intros w.
  - cbn. by rewrite app_nil_r.
  - rewrite for_each_cons.
    destruct (IH (run (revert_sysctl n) w)) as (Ho & Hc & Hs).
    rewrite Ho, Hc, Hs. clear IH Ho Hc Hs.
    rewrite revert_sysctl_world. cbn [captured flat_map].
    destruct (Dict.get (original_values w) n) as [v|]; [|done].
    rewrite set_sysctl_called.
    cbn [original_values sysctl_conf shell Py.format app map].
    fold (captured (original_values w) names).
    unfold write_of at 2. cbn [fst snd].
    by rewrite <- app_assoc.
Qed.

(** When the captured pairs are plain text the kernel sees exactly these
    writes. *)
Lemma revert_names_kern (names : list string) (w : world) :
  Forall (fun p => plain_entry p = true) (captured (original_values w) names) ->
  kern (run (for_each names revert_sysctl) w)
  = writes (captured (original_values w) names) (kern w).
Proof.
  revert w. induction names as [|n names IH]; intros w Hp; [done|].
  rewrite for_each_cons. cbn [captured flat_map] in Hp |- *.
  fold (captured (original_values w) names) in Hp |- *.
  assert (original_values (run (revert_sysctl n) w) = original_values w) as Ho.
  { rewrite revert_sysctl_world.
    destruct (Dict.get (original_values w) n); [|done].
    by rewrite set_sysctl_called. }
  rewrite IH; rewrite Ho.
  - rewrite revert_sysctl_world.
    destruct (Dict.get (original_values w) n) as [v|]; [|done].
    cbn [app] in Hp |- *. apply Forall_cons in Hp as [Hnv _].
    apply andb_true_iff in Hnv as [Hn Hv]. cbn [fst snd] in Hn, Hv.
    rewrite set_sysctl_world by done.
    by rewrite writes_cons.
  - destruct (Dict.get (original_values w) n); [|done].
    cbn [app] in Hp. by apply Forall_cons in Hp as [_ Hp].
Qed.

Lemma captured_items (d : Dict.t) (l : list (string * string)) :
  (forall n v, In (n, v) l -> Dict.get d n = Some v) ->
  captured d (map fst l) = l.
Proof.
  induction l as [|[n v] l IH]; intros Hl; [done|].
  cbn [map fst captured flat_map]. rewrite (Hl n v) by (by left).
  fold (captured d (map fst l)). rewrite IH; [done|].
  intros n' v' Hin. apply Hl. by right.
Qed.

(** With distinct keys the loop over [d.keys()] writes the items of [d]. *)
Lemma captured_keys (d : Dict.t) :
  NoDup (Dict.keys d) -> captured d (Dict.keys d) = d.
Proof.
  intros Hd. apply captured_items. intros n v. by apply DictFacts.get_Some_In.
Qed.

Lemma revert_loop_world (w : world) :
  run revert_loop w
  = run (for_each (Dict.keys (original_values w)) revert_sysctl) w.
Proof. unfold revert_loop. by rewrite run_bind. Qed.

(** On an empty table the loop body never runs. *)
Lemma revert_loop_empty (w : world) :
  original_values w = [] -> run revert_loop w = w.
Proof. intros Hw. rewrite revert_loop_world, Hw. reflexivity. Qed.

Lemma in_map_write_of (n v : string) (l : list (string * string)) :
  In (SysctlW n v) (map write_of l) <-> In (n, v) l.
Proof.
  rewrite in_map_iff. split.
  - intros [[n' v'] [[= -> ->] Hin]]. done.
  - intros Hin. by exists (n, v).
Qed.

(** ** The table of original values *)

(** C2: the table keeps the first value captured for a name.  A value the
    table holds survives every later round of the apply loop, with any
    flags and any list, also one that names the tunable again; and when the
    loop meets a name for the first time with the apply flag set, the value
    the table holds for it at the end of the loop is the one read from the
    kernel at that first round. *)
Theorem first_capture_wins
    (try_flag keep_flag : bool) (recs : list (string * Z)) (w : world)
    (name : string) :
  let stored w := Dict.get (original_values w) name in
  (forall v, stored w = Some v ->
             stored (run (suggest_loop try_flag keep_flag recs) w) = Some v)
  /\ (forall before value after,
        try_flag = true ->
        recs = before ++ (name, value) :: after ->
        ~ In name (map fst before) ->
        stored w = None ->
        stored (run (suggest_loop try_flag keep_flag recs) w)
        = Some (current name (run (suggest_loop try_flag keep_flag before) w))).
Proof.
  cbv zeta. split.
  - intros v. apply suggest_loop_keeps.
  - intros before value after -> -> Hfresh Hnone.
    unfold suggest_loop at 1. rewrite for_each_app, for_each_cons.
    fold (suggest_loop true keep_flag before).
    fold (suggest_loop true keep_flag after).
    set (w1 := run (suggest_loop true keep_flag before) w).
    assert (Dict.get (original_values w1) name = None) as Hw1
      by (by apply suggest_loop_absent).
    apply suggest_loop_keeps.
    rewrite suggest_one_original_values.
    unfold Dict.contains. rewrite Hw1. cbn [andb negb].
    rewrite DictFacts.get_set. by rewrite String.eqb_refl.
Qed.

Lemma first_capture_wins_witness :
  Dict.get (original_values sample_world_applied) "kern.somaxconn"
  = Some "128"%string
  /\ Dict.get (original_values
                 (run (suggest_loop true true
                         [("kern.somaxconn", 2048); ("kern.somaxconn", 4096)])
                      sample_world_applied))
              "kern.somaxconn"
     = Some "128"%string
  /\ Dict.get (original_values
                 (run (suggest_loop true false
                         [("kern.maxvnodes", 250000); ("kern.somaxconn", 1024);
                          ("kern.somaxconn", 2048)])
                      sample_world))
              "kern.somaxconn"
     = Some "128"%string.
Proof.
  split; [reflexivity|]. split.
  - apply (proj1 (first_capture_wins true true
                    [("kern.somaxconn", 2048); ("kern.somaxconn", 4096)]
                    sample_world_applied "kern.somaxconn")).
    reflexivity.
  - apply (proj2 (first_capture_wins true false
                    [("kern.maxvnodes", 250000); ("kern.somaxconn", 1024);
                     ("kern.somaxconn", 2048)]
                    sample_world "kern.somaxconn")
             [("kern.maxvnodes", 250000)] 1024 [("kern.somaxconn", 2048)]).
    + reflexivity.
    + reflexivity.
    + cbn. intuition discriminate.
    + reflexivity.
Defined.

(** ** Revert *)




(** The hypothesis of [revert_restores_captured] holds of every table the
    script can build: it starts empty and only [suggest_tweaks] adds to it. *)
Lemma table_keys_distinct
    (cpu : cpu_info) (mem : memory_info) (net : network_settings)
    (try_flag keep_flag : bool) (k : kernel) (conf : string) :
  NoDup (Dict.keys (original_values
                      (run (suggest_tweaks cpu mem net try_flag keep_flag)
                           (boot k conf)))).
Proof.
  unfold suggest_tweaks. rewrite run_bind.
  apply suggest_loop_NoDup. cbn. apply NoDup_nil_2.
Qed.

(** ** Apply and persist *)

Lemma writes_of_commands (recs : list (string * Z)) :
  List.filter is_write (flat_map (commands_of true) recs)
  = map write_of (map assignment recs).
Proof. induction recs as [|[n v] recs IH]; cbn; [done | by rewrite IH]. Qed.

Lemma reads_of_commands (recs : list (string * Z)) :
  List.filter is_write (flat_map (commands_of false) recs) = [].
Proof. induction recs as [|[n v] recs IH]; cbn; done. Qed.

Lemma suggest_tweaks_world
    (cpu : cpu_info) (mem : memory_info) (net : network_settings)
    (try_flag keep_flag : bool) (w : world) :
  run (suggest_tweaks cpu mem net try_flag keep_flag) w
  = run (suggest_loop try_flag keep_flag (recommendations cpu mem net))
        (World (kern w) (sysctl_conf w) (original_values w)
               (stdout w ++ [Py.nl +:+ "Recommended sysctl tweaks and performance suggestions:"])
               (shell w)).
Proof. unfold suggest_tweaks. by rewrite run_bind. Qed.

(** C8: with the apply flag alone the file is left as it was while every
    recommendation is written to the kernel, which then holds the suggested
    value under each name it accepts; with the persist flag as well the
    file gains, after its former content, one name=value line per
    recommendation in display order, and the kernel and the commands run
    are the same as without it. *)
Theorem apply_then_persist
    (cpu : cpu_info) (mem : memory_info) (net : network_settings) (w : world) :
  let recs := recommendations cpu mem net in
  let applied := run (suggest_tweaks cpu mem net true false) w in
  let persisted := run (suggest_tweaks cpu mem net true true) w in
  sysctl_conf applied = sysctl_conf w
  /\ List.filter is_write (shell applied)
     = List.filter is_write (shell w) ++ map write_of (map assignment recs)
  /\ Forall (fun rec =>
               tunables (kern applied) !! fst rec
               = if decide (fst rec ∈ refused (kern w))
                 then tunables (kern w) !! fst rec
                 else Some (Py.str_int (snd rec))) recs
  /\ sysctl_conf persisted = sysctl_conf w +:+ conf_text recs
  /\ kern persisted = kern applied
  /\ shell persisted = shell applied.
Proof.
  cbv zeta. rewrite !suggest_tweaks_world.
  rewrite !suggest_loop_conf, !suggest_loop_kern, !suggest_loop_shell
    by apply recommendations_plain.
  cbn [andb kern sysctl_conf shell]. split_and!; try done.
  - by rewrite List.filter_app, writes_of_commands.
  - apply Forall_forall. intros [n v] Hin. cbn [fst snd].
    apply list_elem_of_In in Hin.
    destruct (decide (n ∈ refused (kern w))) as [Hr|Hr].
    + by apply writes_refused_name.
    + apply writes_accepted; [| |done].
      * rewrite map_map. cbn [assignment fst].
        destruct cpu as [[model cores] smt], mem as [physmem usermem],
          net as [snd_sp rcv_sp].
        apply recommendations_names_NoDup.
      * change (n, Py.str_int v) with (assignment (n, v)). by apply in_map.
Qed.

Example apply_then_persist_sample :
  let applied :=
    run (suggest_tweaks ("", 4, "1") (8192, 6000) (16384, 16384) true false)%string
        sample_world in
  let persisted :=
    run (suggest_tweaks ("", 4, "1") (8192, 6000) (16384, 16384) true true)%string
        sample_world in
  sysctl_conf applied = "# sysctl.conf"%string
  /\ sysctl_conf persisted
     = ("# sysctl.conf" +:+ "kern.sched.quantum=10" +:+ Py.nl
        +:+ "hw.smt=0" +:+ Py.nl +:+ "kern.maxvnodes=250000" +:+ Py.nl
        +:+ "net.inet.tcp.sendspace=65536" +:+ Py.nl
        +:+ "net.inet.tcp.recvspace=65536" +:+ Py.nl
        +:+ "kern.somaxconn=1024" +:+ Py.nl)%string
  /\ tunables (kern applied) !! "kern.somaxconn"%string = Some "1024"%string
  /\ tunables (kern applied) !! "hw.smt"%string = Some "1"%string.
Proof. vm_compute. done. Qed.

(** ** Whole runs *)

Lemma only_reads_refl (w : world) : only_reads w w.
Proof. by repeat split. Qed.

Lemma only_reads_trans (w1 w2 w3 : world) :
  only_reads w1 w2 -> only_reads w2 w3 -> only_reads w1 w3.
Proof.
  intros (Hk & Hc & Ho & Hs) (Hk' & Hc' & Ho' & Hs').
  repeat split; congruence.
Qed.

Lemma quiet_ret {A} (a : A) : quiet (ret a).
Proof. intros w. apply only_reads_refl. Qed.

Lemma quiet_bind {A B} (m : IO A) (f : A -> IO B) :
  quiet m -> (forall a, quiet (f a)) -> quiet (x <- m ;; f x).
Proof.
  intros Hm Hf w. rewrite run_bind.
  eapply only_reads_trans; [apply Hm | apply Hf].
Qed.

Lemma quiet_print (line : string) : quiet (print line).
Proof. intros w. by repeat split. Qed.

Lemma quiet_get_sysctl (name : string) :
  plain_name name = true -> quiet (get_sysctl name).
Proof.
  intros Hn w. rewrite get_sysctl_world by done. repeat split; cbn.
  rewrite List.filter_app. cbn. by rewrite app_nil_r.
Qed.

Lemma quiet_get_cpu_info : quiet get_cpu_info.
Proof.
  unfold get_cpu_info.
  repeat (apply quiet_bind; [by apply quiet_get_sysctl | intros ?]).
  destruct (Py.int _); [|apply quiet_ret].
  apply quiet_bind; [by apply quiet_get_sysctl | intros; apply quiet_ret].
Qed.

Lemma quiet_get_memory_info : quiet get_memory_info.
Proof.
  unfold get_memory_info.
  apply quiet_bind; [by apply quiet_get_sysctl | intros p].
  destruct (Py.int p); [|apply quiet_ret].
  apply quiet_bind; [by apply quiet_get_sysctl | intros u].
  destruct (Py.int u); apply quiet_ret.
Qed.

Lemma quiet_get_network_settings : quiet get_network_settings.
Proof.
  unfold get_network_settings.
  apply quiet_bind; [by apply quiet_get_sysctl | intros s].
  destruct (Py.int s); [|apply quiet_ret].
  apply quiet_bind; [by apply quiet_get_sysctl | intros r].
  destruct (Py.int r); apply quiet_ret.
Qed.

Lemma lift_world {A} (m : IO A) (w : world) :
  lift m w = (Ok (fst (m w)), run m w).
Proof. unfold lift, bind, ret, run. by destruct (m w). Qed.

(** How [main] falls apart: the three inspector calls, any of which may
    raise, then the three report lines, then one of the two branches. *)
Lemma main_cases (a : args) (w : world) :
  (exists e w1, main a w = (Raise e, w1) /\ only_reads w w1)
  \/ (exists cpu mem net w1,
        only_reads w w1
        /\ main a w
           = (Ok tt,
              if arg_revert a
              then run revert_loop
                     (run (print (Py.nl +:+ "Reverting sysctl settings to original values..."))
                          w1)
              else run (suggest_tweaks cpu mem net (arg_try a) (arg_keep a)) w1)).
Proof.
  unfold main, try_bind.
  pose proof (quiet_get_cpu_info w) as H1. unfold run in H1.
  destruct (get_cpu_info w) as [[cpu|e] w1]; cbn [snd] in H1.
  2: { left. by exists e, w1. }
  pose proof (quiet_get_memory_info w1) as H2. unfold run in H2.
  destruct (get_memory_info w1) as [[mem|e] w2]; cbn [snd] in H2.
  2: { left. exists e, w2. split; [done|]. by eapply only_reads_trans. }
  pose proof (quiet_get_network_settings w2) as H3. unfold run in H3.
  destruct (get_network_settings w2) as [[net|e] w3]; cbn [snd] in H3.
  2: { left. exists e, w3. split; [done|].
       eapply only_reads_trans; [exact H1|]. by eapply only_reads_trans. }
  right. destruct cpu as [[model cores] smt].
  set (l1 := ("CPU Model: " +:+ _)%string).
  set (l2 := ("Physical Memory: " +:+ _)%string).
  set (l3 := ("TCP Send Space: " +:+ _)%string).
  exists (model, cores, smt), mem, net,
    (run (print l3) (run (print l2) (run (print l1) w3))).
  split.
  - eapply only_reads_trans; [exact H1|].
    eapply only_reads_trans; [exact H2|].
    eapply only_reads_trans; [exact H3|].
    repeat (eapply only_reads_trans; [|apply quiet_print]).
    apply only_reads_refl.
  - rewrite lift_world.
    match goal with |- (Ok ?u, _) = _ => destruct u end.
    f_equal. rewrite !run_bind.
    destruct (arg_revert a); [by rewrite run_bind|done].
Qed.



(** The file as it stands: whatever the flags and the machine, the run
    ends before its first statement. *)
Example script_does_not_compile :
  compiles = false
  /\ script (Args false false false) sample_world
     = (Raise SyntaxError, sample_world).
Proof. split; reflexivity. Qed.

(** [main] under its reading, with [--revert] on the sample machine,
    command by command: seven reads by the inspector, then nothing. *)
Example revert_run_sample :
  main (Args false false true) sample_world
  = (Ok tt,
     World sample_kernel "# sysctl.conf"%string []
       [ "CPU Model: Intel(R) Core(TM) i5, Cores: 4, SMT Enabled: 1";
         "Physical Memory: 8192 MB, User Memory: 6000 MB";
         "TCP Send Space: 16384, TCP Receive Space: 16384";
         Py.nl +:+ "Reverting sysctl settings to original values..." ]%string
       [ SysctlN "hw.model"; SysctlN "hw.ncpu"; SysctlN "hw.smt";
         SysctlN "hw.physmem"; SysctlN "hw.usermem";
         SysctlN "net.inet.tcp.sendspace"; SysctlN "net.inet.tcp.recvspace" ]).
Proof. vm_compute. reflexivity. Qed.

(** [main] under its reading, on a kernel that does not know [hw.ncpu]:
    [int("")] raises in [get_cpu_info], after two reads, and nothing else
    happens. *)
Example inspector_raises :
  main (Args true true false) (boot (Kernel ∅ ∅) ""%string)
  = (Raise ValueError,
     World (Kernel ∅ ∅) ""%string [] []
           [ SysctlN "hw.model"; SysctlN "hw.ncpu" ]).
Proof. vm_compute. reflexivity. Qed.

(** ** Text: [strip], [str] and [int] *)

Module TextFacts.

Lemma digits_string_of_uint (d : Decimal.uint) (acc : Z) (b : bool) :
  d <> Decimal.Nil \/ b = true ->
  Py.digits acc b (NilEmpty.string_of_uint d) = Some (uint_value d acc).
Proof.
  revert acc b. induction d; intros acc b Hd;
    try (cbn [NilEmpty.string_of_uint Py.digits uint_value];
         match goal with
         | |- context [Py.digit ?c] =>
             let v := eval vm_compute in (Py.digit c) in
             change (Py.digit c) with v
         end;
         cbv beta iota; apply IHd; by right).
  cbn. destruct Hd as [Hd| ->]; [done | reflexivity].
Qed.

Lemma of_uint_acc_value (d : Decimal.uint) (acc : positive) :
  Z.pos (Pos.of_uint_acc d acc) = uint_value d (Z.pos acc).
Proof.
  revert acc. induction d; intros acc; cbn [Pos.of_uint_acc uint_value];
    [reflexivity | rewrite IHd; f_equal; lia ..].
Qed.

Lemma of_uint_value (d : Decimal.uint) :
  Z.of_N (Pos.of_uint d) = uint_value d 0.
Proof.
  induction d; cbn [Pos.of_uint uint_value Z.of_N];
    [reflexivity | exact IHd | apply of_uint_acc_value ..].
Qed.

Lemma to_uint_value (p : positive) : uint_value (Pos.to_uint p) 0 = Z.pos p.
Proof. by rewrite <- of_uint_value, DecimalPos.Unsigned.of_to. Qed.

Lemma string_of_uint_digits (d : Decimal.uint) :
  all_chars (fun c => negb (Py.isspace c)) (NilEmpty.string_of_uint d) = true.
Proof. induction d; cbn; done. Qed.

Lemma lstrip_clean (c : ascii) (s : string) :
  Py.isspace c = false -> Py.lstrip (String c s) = String c s.
Proof. intros Hc. cbn. by rewrite Hc. Qed.

(** Blank characters at the end do not count. *)
Lemma rstrip_app_blank (s t : string) :
  all_chars Py.isspace t = true -> Py.rstrip (s +:+ t) = Py.rstrip s.
Proof.
  intros Ht. induction s as [|c s IH].
  - change (""%string +:+ t) with t. cbn.
    induction t as [|c t IHt]; [done|].
    cbn in Ht |- *. apply andb_true_iff in Ht as [Hc Ht].
    by rewrite (IHt Ht), Hc.
  - change (String c s +:+ t) with (String c (s +:+ t)).
    cbn [Py.rstrip]. by rewrite IH.
Qed.

Lemma rstrip_no_blank (s : string) :
  all_chars (fun c => negb (Py.isspace c)) s = true -> Py.rstrip s = s.
Proof.
  induction s as [|c s IH]; [done|]. cbn. intros H.
  apply andb_true_iff in H as [Hc Hs]. apply negb_true_iff in Hc.
  rewrite (IH Hs), Hc. by destruct s.
Qed.

(** [str] then [int] gives the number back, also through the newline and
    the [strip] of [run_command]. *)
Lemma int_str_int (n : Z) : Py.int (Py.str_int n +:+ Py.nl) = Some n.
Proof.
  unfold Py.int, Py.strip, Py.str_int.
  assert (forall d, d <> Decimal.Nil ->
            Py.rstrip (Py.lstrip (NilEmpty.string_of_uint d +:+ Py.nl))
            = NilEmpty.string_of_uint d) as Hstrip.
  { intros d Hd.
    assert (Py.lstrip (NilEmpty.string_of_uint d +:+ Py.nl)
            = NilEmpty.string_of_uint d +:+ Py.nl) as ->
      by (destruct d; done).
    rewrite rstrip_app_blank by done.
    apply rstrip_no_blank, string_of_uint_digits. }
  destruct n as [|p|p]; [reflexivity| |].
  - cbn [Z.to_int NilZero.string_of_int].
    pose proof (DecimalPos.Unsigned.to_uint_nonnil p) as Hp.
    assert (NilZero.string_of_uint (Pos.to_uint p)
            = NilEmpty.string_of_uint (Pos.to_uint p)) as ->
      by (by destruct (Pos.to_uint p)).
    rewrite (Hstrip _ Hp).
    assert (Py.digits 0 false (NilEmpty.string_of_uint (Pos.to_uint p))
            = Some (Z.pos p)) as Hd
      by (rewrite digits_string_of_uint by (by left);
          by rewrite to_uint_value).
    destruct (Pos.to_uint p); try done; exact Hd.
  - cbn [Z.to_int NilZero.string_of_int].
    pose proof (DecimalPos.Unsigned.to_uint_nonnil p) as Hp.
    assert (NilZero.string_of_uint (Pos.to_uint p)
            = NilEmpty.string_of_uint (Pos.to_uint p)) as ->
      by (by destruct (Pos.to_uint p)).
    change (String "-" ?s +:+ Py.nl) with (String "-" (s +:+ Py.nl)).
    assert (Py.lstrip (String "-" (NilEmpty.string_of_uint (Pos.to_uint p)
                                   +:+ Py.nl))
            = String "-" (NilEmpty.string_of_uint (Pos.to_uint p)) +:+ Py.nl)
      as -> by done.
    rewrite rstrip_app_blank by done.
    rewrite rstrip_no_blank
      by (cbn [all_chars]; by rewrite string_of_uint_digits).
    rewrite digits_string_of_uint by (by left).
    by rewrite to_uint_value.
Qed.

End TextFacts.

Module StripFacts.

Lemma lstrip_cases (s : string) :
  Py.lstrip s = ""%string
  \/ exists c r, Py.lstrip s = String c r /\ Py.isspace c = false.
Proof.
  induction s as [|c s IH]; [by left|].
  cbn. destruct (Py.isspace c) eqn:Hc; [exact IH|]. right. eauto.
Qed.

Lemma rstrip_head (c : ascii) (r : string) :
  Py.isspace c = false -> Py.rstrip (String c r) = String c (Py.rstrip r).
Proof. intros Hc. cbn. rewrite Hc. by destruct (Py.rstrip r). Qed.

Lemma rstrip_cons (c : ascii) (r : string) :
  Py.rstrip (String c r)
  = match Py.rstrip r with
    | EmptyString => if Py.isspace c then EmptyString else String c EmptyString
    | x => String c x
    end.
Proof. reflexivity. Qed.

Lemma rstrip_idem (s : string) : Py.rstrip (Py.rstrip s) = Py.rstrip s.
Proof.
  induction s as [|c s IH]; [done|].
  rewrite rstrip_cons. destruct (Py.rstrip s) as [|x xs] eqn:Hs.
  - destruct (Py.isspace c) eqn:Hc; [done|].
    by rewrite rstrip_cons, Hc.
  - by rewrite rstrip_cons, IH.
Qed.

(** What [strip] returns is empty, or starts with a character that is not
    blank and is left alone by [rstrip]. *)
Lemma strip_cases (s : string) :
  Py.strip s = ""%string
  \/ exists c r, Py.strip s = String c r /\ Py.isspace c = false
                 /\ Py.rstrip r = r.
Proof.
  unfold Py.strip. destruct (lstrip_cases s) as [->|(c & r & -> & Hc)].
  - by left.
  - right. exists c, (Py.rstrip r). rewrite rstrip_head by done.
    by rewrite rstrip_idem.
Qed.

Lemma strip_idem (s : string) : Py.strip (Py.strip s) = Py.strip s.
Proof.
  destruct (strip_cases s) as [->|(c & r & -> & Hc & Hr)]; [done|].
  unfold Py.strip. rewrite TextFacts.lstrip_clean by done.
  by rewrite rstrip_head, Hr.
Qed.

(** Stripped text comes back unchanged from a line of its own. *)
Lemma strip_line (s : string) : Py.strip (Py.strip s +:+ Py.nl) = Py.strip s.
Proof.
  destruct (strip_cases s) as [->|(c & r & -> & Hc & Hr)]; [done|].
  unfold Py.strip.
  change (String c r +:+ Py.nl) with (String c (r +:+ Py.nl)).
  rewrite TextFacts.lstrip_clean by done.
  change (String c (r +:+ Py.nl)) with (String c r +:+ Py.nl).
  rewrite TextFacts.rstrip_app_blank by done.
  by rewrite rstrip_head, Hr.
Qed.

End StripFacts.

(** ** Readings *)

Lemma current_reading (name : string) (w : world) :
  plain_name name = true -> current name w = reading (kern w) name.
Proof.
  intros Hn.
  unfold current, reading, get_sysctl, run_command, bind, subprocess_run, ret.
  rewrite sh_read by done.
  by destruct (exec (SysctlN name) (kern w)).
Qed.

(** Whatever the name and the shell, what [get_sysctl] returns is
    stripped text. *)
Lemma current_stripped (name : string) (w : world) :
  Py.strip (current name w) = current name w.
Proof.
  unfold current, get_sysctl, run_command, bind, subprocess_run, ret.
  destruct (sh (command_line (SysctlN name)) (kern w)). cbn [fst].
  apply StripFacts.strip_idem.
Qed.

Lemma reading_lookup (k : kernel) (name : string) :
  reading k name = match tunables k !! name with
                   | Some v => Py.strip (v +:+ Py.nl)
                   | None => ""%string
                   end.
Proof. unfold reading. cbn. by destruct (tunables k !! name). Qed.

(** Two kernels that agree on a name give the same reading of it. *)
Lemma reading_ext (k k' : kernel) (name : string) :
  tunables k' !! name = tunables k !! name -> reading k' name = reading k name.
Proof. intros H. by rewrite !reading_lookup, H. Qed.

Lemma reading_stripped (k : kernel) (name : string) :
  Py.strip (reading k name) = reading k name
  /\ Py.strip (reading k name +:+ Py.nl) = reading k name.
Proof.
  rewrite reading_lookup. destruct (tunables k !! name); [|done].
  split; [apply StripFacts.strip_idem | apply StripFacts.strip_line].
Qed.

(** * Further properties of the script *)

(** ** The shape of the advice *)

(** X1: whatever the readings, the list ends with the backlog rule. *)
Theorem backlog_always_last
    (cpu : cpu_info) (mem : memory_info) (net : network_settings) :
  last (recommendations cpu mem net) = Some ("kern.somaxconn"%string, 1024).
Proof.
  destruct cpu as [[model cores] smt], mem as [physmem usermem],
    net as [snd_sp rcv_sp].
  unfold recommendations. apply last_snoc.
Qed.

Lemma recommendations_sublist
    (cpu : cpu_info) (mem : memory_info) (net : network_settings) :
  sublist (recommendations cpu mem net) rule_order.
Proof.
  destruct cpu as [[model cores] smt], mem as [physmem usermem],
    net as [snd_sp rcv_sp].
  unfold recommendations.
  destruct (cores >? 2), (String.eqb smt "1"), (physmem >=? 4096),
    (snd_sp <? 65536), (rcv_sp <? 65536);
    cbn [app]; unfold rule_order;
    repeat first [apply sublist_nil | apply sublist_skip | apply sublist_cons].
Qed.

(** X2: the list is always a selection from the seven rows of the rule
    table, in the table's order, and holds between two and six of them. *)
Theorem advice_follows_rule_order
    (cpu : cpu_info) (mem : memory_info) (net : network_settings) :
  sublist (recommendations cpu mem net) rule_order
  /\ (2 <= length (recommendations cpu mem net) <= 6)%nat.
Proof.
  split; [apply recommendations_sublist|].
  destruct cpu as [[model cores] smt], mem as [physmem usermem],
    net as [snd_sp rcv_sp].
  unfold recommendations.
  destruct (cores >? 2), (String.eqb smt "1"), (physmem >=? 4096),
    (snd_sp <? 65536), (rcv_sp <? 65536); cbn; lia.
Qed.

(** ** The inspector *)

Lemma get_sysctl_eq (name : string) (w : world) :
  plain_name name = true ->
  get_sysctl name w = (reading (kern w) name, asked [name] w).
Proof.
  intros Hn. rewrite (surjective_pairing (get_sysctl name w)).
  change (snd (get_sysctl name w)) with (run (get_sysctl name) w).
  change (fst (get_sysctl name w)) with (current name w).
  by rewrite get_sysctl_world, current_reading.
Qed.

Lemma asked_asked (l1 l2 : list string) (w : world) :
  asked l2 (asked l1 w) = asked (l1 ++ l2) w.
Proof. unfold asked. cbn. by rewrite map_app, app_assoc. Qed.

Lemma kern_asked (l : list string) (w : world) : kern (asked l w) = kern w.
Proof. reflexivity. Qed.

Ltac inspector_done :=
  rewrite ?get_sysctl_eq by reflexivity;
  rewrite ?kern_asked; unfold ret; rewrite ?asked_asked;
  reflexivity.

Lemma int_strip (s : string) : Py.int (Py.strip s) = Py.int s.
Proof. unfold Py.int. by rewrite StripFacts.strip_idem. Qed.

(** A tunable that holds a number in decimal reads back as that number. *)
Lemma int_reading (k : kernel) (name : string) (n : Z) :
  tunables k !! name = Some (Py.str_int n) -> Py.int (reading k name) = Some n.
Proof.
  intros H. rewrite reading_lookup, H, int_strip.
  apply TextFacts.int_str_int.
Qed.

(** A tunable the kernel does not know reads as the empty string, which
    [int] rejects. *)
Lemma int_reading_missing (k : kernel) (name : string) :
  tunables k !! name = None -> Py.int (reading k name) = None.
Proof. intros H. by rewrite reading_lookup, H. Qed.

Lemma get_cpu_info_eq (w : world) :
  get_cpu_info w
  = match Py.int (reading (kern w) "hw.ncpu") with
    | Some cores =>
        (Ok (reading (kern w) "hw.model", cores, reading (kern w) "hw.smt"),
         asked ["hw.model"; "hw.ncpu"; "hw.smt"]%string w)
    | None => (Raise ValueError, asked ["hw.model"; "hw.ncpu"]%string w)
    end.
Proof.
  unfold get_cpu_info, bind. rewrite !get_sysctl_eq by reflexivity. rewrite ?kern_asked.
  destruct (Py.int _); inspector_done.
Qed.

Lemma get_memory_info_eq (w : world) :
  get_memory_info w
  = match Py.int (reading (kern w) "hw.physmem") with
    | Some pb =>
        match Py.int (reading (kern w) "hw.usermem") with
        | Some ub =>
            (Ok (pb / 1024 ^ 2, ub / 1024 ^ 2),
             asked ["hw.physmem"; "hw.usermem"]%string w)
        | None =>
            (Raise ValueError, asked ["hw.physmem"; "hw.usermem"]%string w)
        end
    | None => (Raise ValueError, asked ["hw.physmem"]%string w)
    end.
Proof.
  unfold get_memory_info, bind. rewrite !get_sysctl_eq by reflexivity. rewrite ?kern_asked.
  destruct (Py.int _); [|inspector_done].
  rewrite get_sysctl_eq by reflexivity. rewrite ?kern_asked.
  destruct (Py.int _); inspector_done.
Qed.

Lemma get_network_settings_eq (w : world) :
  get_network_settings w
  = match Py.int (reading (kern w) "net.inet.tcp.sendspace") with
    | Some s =>
        match Py.int (reading (kern w) "net.inet.tcp.recvspace") with
        | Some r =>
            (Ok (s, r),
             asked ["net.inet.tcp.sendspace"; "net.inet.tcp.recvspace"]%string w)
        | None =>
            (Raise ValueError,
             asked ["net.inet.tcp.sendspace"; "net.inet.tcp.recvspace"]%string w)
        end
    | None => (Raise ValueError, asked ["net.inet.tcp.sendspace"]%string w)
    end.
Proof.
  unfold get_network_settings, bind. rewrite !get_sysctl_eq by reflexivity. rewrite ?kern_asked.
  destruct (Py.int _); [|inspector_done].
  rewrite get_sysctl_eq by reflexivity. rewrite ?kern_asked.
  destruct (Py.int _); inspector_done.
Qed.

(** X3: what [get_sysctl] returns is stripped text, whatever the name
    and whatever the shell makes of the command; and when the name and
    the text returned are plain, writing the text back under the name
    leaves what [get_sysctl] returns for it as it was, whether or not the
    kernel accepts the write. *)
Theorem get_sysctl_stripped (name : string) (w : world) :
  let v := fst (get_sysctl name w) in
  Py.strip v = v
  /\ (plain_name name = true -> plain_value v = true ->
      fst (get_sysctl name (run (set_sysctl name (Py.Str v)) w)) = v).
Proof.
  cbv zeta. split; [apply current_stripped|].
  intros Hn Hv. rewrite !get_sysctl_eq in * by done. cbn [fst] in *.
  rewrite set_sysctl_world by done. cbn [kern Py.format].
  rewrite (reading_lookup (snd _)), exec_write_lookup.
  destruct (decide _) as [_|_]; [apply reading_stripped|].
  by rewrite <- reading_lookup.
Qed.

Lemma get_sysctl_stripped_witness :
  Py.strip (fst (get_sysctl "kern.somaxconn" sample_world))
  = fst (get_sysctl "kern.somaxconn" sample_world)
  /\ fst (get_sysctl "kern.somaxconn"
            (run (set_sysctl "kern.somaxconn" (Py.Str "128")) sample_world))
     = "128"%string.
Proof.
  destruct (get_sysctl_stripped "kern.somaxconn" sample_world) as [Hs Hw].
  split; [exact Hs|]. apply Hw; reflexivity.
Defined.

(** X4: when the kernel holds byte counts in decimal under [hw.physmem]
    and [hw.usermem], [get_memory_info] returns both divided by 2^20 and
    rounded down, after two reads. *)
Theorem get_memory_info_megabytes (w : world) (p u : Z) :
  tunables (kern w) !! "hw.physmem"%string = Some (Py.str_int p) ->
  tunables (kern w) !! "hw.usermem"%string = Some (Py.str_int u) ->
  get_memory_info w
  = (Ok (p / 1048576, u / 1048576),
     asked ["hw.physmem"; "hw.usermem"]%string w).
Proof.
  intros Hp Hu. rewrite get_memory_info_eq.
  by rewrite (int_reading _ _ _ Hp), (int_reading _ _ _ Hu).
Qed.

Lemma get_memory_info_megabytes_witness :
  get_memory_info sample_world
  = (Ok (8192, 6000), asked ["hw.physmem"; "hw.usermem"]%string sample_world).
Proof.
  apply (get_memory_info_megabytes sample_world 8589934592 6291456000);
    reflexivity.
Defined.

(** X5: inspector and advisor together put the memory threshold at
    4294967296 bytes: with a decimal byte count [p] under [hw.physmem],
    the list built from what [get_memory_info] returns raises the vnode
    cache iff [p] is at least that, and lowers the buffer cache iff it
    is below. *)
Theorem memory_threshold_in_bytes
    (w : world) (p u : Z) (cpu : cpu_info) (net : network_settings) :
  tunables (kern w) !! "hw.physmem"%string = Some (Py.str_int p) ->
  tunables (kern w) !! "hw.usermem"%string = Some (Py.str_int u) ->
  exists mem,
    fst (get_memory_info w) = Ok mem
    /\ (In ("kern.maxvnodes"%string, 250000) (recommendations cpu mem net)
        <-> p >= 4294967296)
    /\ (In ("kern.bufcachepercent"%string, 15) (recommendations cpu mem net)
        <-> p < 4294967296).
Proof.
  intros Hp Hu. exists (p / 1048576, u / 1048576).
  rewrite get_memory_info_eq.
  rewrite (int_reading _ _ _ Hp), (int_reading _ _ _ Hu).
  split; [reflexivity|].
  destruct cpu as [[model cores] smt], net as [snd_sp rcv_sp].
  rewrite !recommendations_In.
  pose proof (Z.div_mod p 1048576 ltac:(lia)) as Hdiv.
  pose proof (Z.mod_pos_bound p 1048576 ltac:(lia)) as Hmod.
  split; split; intros H; intuition (try congruence; try lia).
Qed.

Lemma memory_threshold_in_bytes_witness :
  exists mem,
    fst (get_memory_info sample_world) = Ok mem
    /\ (In ("kern.maxvnodes"%string, 250000)
           (recommendations ("", 4, "1")%string mem (16384, 16384))
        <-> 8589934592 >= 4294967296)
    /\ (In ("kern.bufcachepercent"%string, 15)
           (recommendations ("", 4, "1")%string mem (16384, 16384))
        <-> 8589934592 < 4294967296).
Proof.
  apply (memory_threshold_in_bytes sample_world 8589934592 6291456000);
    reflexivity.
Defined.

(** X6: [get_cpu_info] returns the model and SMT texts as read and the
    core count as a number when [hw.ncpu] holds one in decimal; when the
    kernel does not know [hw.ncpu] it raises after two reads and never
    asks for [hw.smt]. *)
Theorem get_cpu_info_reads (w : world) :
  (forall n, tunables (kern w) !! "hw.ncpu"%string = Some (Py.str_int n) ->
             get_cpu_info w
             = (Ok (reading (kern w) "hw.model", n, reading (kern w) "hw.smt"),
                asked ["hw.model"; "hw.ncpu"; "hw.smt"]%string w))
  /\ (tunables (kern w) !! "hw.ncpu"%string = None ->
      get_cpu_info w
      = (Raise ValueError, asked ["hw.model"; "hw.ncpu"]%string w)).
Proof.
  split.
  - intros n Hn. by rewrite get_cpu_info_eq, (int_reading _ _ _ Hn).
  - intros Hn. by rewrite get_cpu_info_eq, (int_reading_missing _ _ Hn).
Qed.

Lemma get_cpu_info_reads_witness :
  get_cpu_info sample_world
  = (Ok ("Intel(R) Core(TM) i5", 4, "1")%string,
     asked ["hw.model"; "hw.ncpu"; "hw.smt"]%string sample_world)
  /\ get_cpu_info (boot (Kernel ∅ ∅) "")
     = (Raise ValueError,
        asked ["hw.model"; "hw.ncpu"]%string (boot (Kernel ∅ ∅) "")).
Proof.
  split.
  - apply (proj1 (get_cpu_info_reads sample_world) 4). reflexivity.
  - apply (proj2 (get_cpu_info_reads (boot (Kernel ∅ ∅) ""))). reflexivity.
Defined.

(** X7: [get_network_settings] returns the two buffer sizes when both
    tunables hold decimal numbers; when the send size cannot be read it
    raises after one read, without asking for the receive size. *)
Theorem get_network_settings_reads (w : world) :
  (forall s r,
      tunables (kern w) !! "net.inet.tcp.sendspace"%string = Some (Py.str_int s) ->
      tunables (kern w) !! "net.inet.tcp.recvspace"%string = Some (Py.str_int r) ->
      get_network_settings w
      = (Ok (s, r),
         asked ["net.inet.tcp.sendspace"; "net.inet.tcp.recvspace"]%string w))
  /\ (tunables (kern w) !! "net.inet.tcp.sendspace"%string = None ->
      get_network_settings w
      = (Raise ValueError, asked ["net.inet.tcp.sendspace"]%string w)).
Proof.
  split.
  - intros s r Hs Hr. rewrite get_network_settings_eq.
    by rewrite (int_reading _ _ _ Hs), (int_reading _ _ _ Hr).
  - intros Hs. rewrite get_network_settings_eq.
    by rewrite (int_reading_missing _ _ Hs).
Qed.

Lemma get_network_settings_reads_witness :
  get_network_settings sample_world
  = (Ok (16384, 16384),
     asked ["net.inet.tcp.sendspace"; "net.inet.tcp.recvspace"]%string
           sample_world)
  /\ get_network_settings (boot (Kernel ∅ ∅) "")
     = (Raise ValueError,
        asked ["net.inet.tcp.sendspace"]%string (boot (Kernel ∅ ∅) "")).
Proof.
  split.
  - apply (proj1 (get_network_settings_reads sample_world) 16384 16384);
      reflexivity.
  - apply (proj2 (get_network_settings_reads (boot (Kernel ∅ ∅) ""))).
    reflexivity.
Defined.

(** ** The apply loop in closed form *)

Lemma set_absent (d : Dict.t) (k v : string) :
  Dict.get d k = None -> Dict.set d k v = d ++ [(k, v)].
Proof.
  induction d as [|[k' v'] d IH]; cbn; [done|].
  destruct (String.eqb k k'); [discriminate|]. intros H. by rewrite IH.
Qed.

Lemma get_snoc (d : Dict.t) (k v m : string) :
  Dict.get (d ++ [(k, v)]) m
  = match Dict.get d m with
    | Some x => Some x
    | None => if String.eqb m k then Some v else None
    end.
Proof.
  induction d as [|[k' v'] d IH]; cbn; [done|].
  by destruct (String.eqb m k').
Qed.

Lemma exec_write_report (n v : string) (k : kernel) :
  (if returncode (fst (exec (SysctlW n v) k)) =? 0
   then "Success"%string else "Failed"%string)
  = (if decide (n ∈ refused k) then "Failed"%string else "Success"%string).
Proof. cbn. by destruct (decide (n ∈ refused k)). Qed.

(** One round of the apply loop for a name the table does not hold. *)
Lemma suggest_one_apply_world
    (keep_flag : bool) (n : string) (v : Z) (w : world) :
  plain_name n = true ->
  Dict.get (original_values w) n = None ->
  run (suggest_one true keep_flag (n, v)) w
  = World (snd (exec (SysctlW n (Py.str_int v)) (kern w)))
          (if keep_flag then sysctl_conf w +:+ conf_line (n, v)
           else sysctl_conf w)
          (original_values w ++ [capture (kern w) (n, v)])
          (stdout w ++ transcript (kern w) (n, v))
          (shell w ++ commands_of true (n, v)).
Proof.
  intros Hp Hn. rewrite suggest_one_world. cbv zeta.
  rewrite get_sysctl_world, current_reading by done.
  cbn [run print snd original_values].
  unfold Dict.contains. rewrite Hn.
  cbn [run store_original_value snd].
  rewrite set_sysctl_world by (done || apply str_int_plain).
  cbn [kern sysctl_conf original_values stdout shell Py.format].
  rewrite exec_write_report, (set_absent _ _ _ Hn).
  destruct keep_flag;
    cbn [run save_sysctl snd kern sysctl_conf original_values stdout shell
         Py.format];
    unfold transcript, display_line, report_line, assignment, commands_of,
           capture, conf_line; cbn [fst snd];
    by rewrite <- !app_assoc.
Qed.

Lemma agree_on_refl (recs : list (string * Z)) (k : kernel) : agree_on recs k k.
Proof. by split. Qed.

Lemma conf_text_cons (rec : string * Z) (recs : list (string * Z)) :
  conf_text (rec :: recs) = conf_line rec +:+ conf_text recs.
Proof. reflexivity. Qed.

(** The apply loop over distinct names none of which is in the table. *)
Lemma apply_loop_world
    (keep_flag : bool) (recs : list (string * Z)) (w : world) (k0 : kernel) :
  Forall (fun rec => plain_name (fst rec) = true) recs ->
  NoDup (map fst recs) ->
  (forall n, In n (map fst recs) -> Dict.get (original_values w) n = None) ->
  agree_on recs k0 (kern w) ->
  run (suggest_loop true keep_flag recs) w
  = World (writes (map assignment recs) (kern w))
          (if keep_flag then sysctl_conf w +:+ conf_text recs
           else sysctl_conf w)
          (original_values w ++ map (capture k0) recs)
          (stdout w ++ flat_map (transcript k0) recs)
          (shell w ++ flat_map (commands_of true) recs).
Proof.
  unfold suggest_loop. revert w.
  induction recs as [|[n v] recs IH]; intros w Hpl Hnd Hfresh [Href Hag].
  - cbn. rewrite !app_nil_r, append_empty_r.
    destruct w, keep_flag; reflexivity.
  - cbn [map fst] in Hnd. apply NoDup_cons in Hnd as [Hn Hnd].
    apply Forall_cons in Hpl as [Hpn Hpl]. cbn [fst] in Hpn.
    rewrite for_each_cons.
    rewrite suggest_one_apply_world by (done || (apply Hfresh; by left)).
    assert (forall m, In m (map fst recs) -> m <> n) as Hne.
    { intros m Hm ->. apply Hn. by apply list_elem_of_In. }
    rewrite IH; clear IH.
    + cbn [kern sysctl_conf original_values stdout shell map flat_map].
      change (assignment (n, v)) with (n, Py.str_int v) at 1.
      rewrite writes_cons.
      assert (reading (kern w) n = reading k0 n) as Hr.
      { symmetry. apply reading_ext. apply Hag. by left. }
      assert (capture (kern w) (n, v) = capture k0 (n, v)) as ->
        by (unfold capture; cbn [fst]; by rewrite Hr).
      assert (transcript (kern w) (n, v) = transcript k0 (n, v)) as ->
        by (unfold transcript, display_line, report_line;
            cbn [fst snd assignment]; by rewrite Hr, Href).
      rewrite conf_text_cons.
      destruct keep_flag; rewrite <- ?app_assoc, ?append_assoc; reflexivity.
    + done.
    + done.
    + intros m Hm. cbn [original_values]. unfold capture. cbn [fst].
      rewrite get_snoc, (Hfresh m) by (by right).
      destruct (String.eqb_spec m n) as [->|_]; [|done].
      by destruct (Hne n Hm).
    + cbn [kern]. split.
      * by rewrite exec_write_refused.
      * intros m Hm. rewrite exec_write_lookup.
        rewrite decide_False by (intros [-> _]; by apply (Hne n)).
        apply Hag. by right.
Qed.

Lemma recommendations_NoDup
    (cpu : cpu_info) (mem : memory_info) (net : network_settings) :
  NoDup (map fst (recommendations cpu mem net)).
Proof.
  destruct cpu as [[model cores] smt], mem as [physmem usermem],
    net as [snd_sp rcv_sp].
  apply recommendations_names_NoDup.
Qed.

(** [suggest_tweaks] with the apply flag, started with an empty table. *)
Lemma apply_world
    (cpu : cpu_info) (mem : memory_info) (net : network_settings)
    (keep_flag : bool) (w : world) :
  original_values w = [] ->
  let recs := recommendations cpu mem net in
  run (suggest_tweaks cpu mem net true keep_flag) w
  = World (writes (map assignment recs) (kern w))
          (if keep_flag then sysctl_conf w +:+ conf_text recs
           else sysctl_conf w)
          (map (capture (kern w)) recs)
          (stdout w
             ++ (Py.nl +:+ "Recommended sysctl tweaks and performance suggestions:")
             :: flat_map (transcript (kern w)) recs)
          (shell w ++ flat_map (commands_of true) recs).
Proof.
  intros Hw. cbv zeta. rewrite suggest_tweaks_world.
  rewrite (apply_loop_world _ _ _ (kern w)).
  - cbn [kern sysctl_conf original_values stdout shell]. rewrite Hw.
    by rewrite <- app_assoc.
  - apply recommendations_plain.
  - apply recommendations_NoDup.
  - intros n _. cbn [original_values]. by rewrite Hw.
  - apply agree_on_refl.
Qed.

(** ** What a call of [suggest_tweaks] shows and records *)

(** X10: without the apply flag [suggest_tweaks] only reads and prints,
    whatever the persist flag: one [sysctl -n] and one display line per
    recommendation, each line showing the live value next to the
    suggested one; kernel, file and table are untouched. *)
Theorem dry_run_display
    (cpu : cpu_info) (mem : memory_info) (net : network_settings)
    (keep_flag : bool) (w : world) :
  let recs := recommendations cpu mem net in
  run (suggest_tweaks cpu mem net false keep_flag) w
  = World (kern w) (sysctl_conf w) (original_values w)
          (stdout w
             ++ (Py.nl +:+ "Recommended sysctl tweaks and performance suggestions:")
             :: map (display_line (kern w)) recs)
          (shell w ++ map (fun rec => SysctlN (fst rec)) recs).
Proof.
  cbv zeta. rewrite suggest_tweaks_world.
  pose proof (recommendations_plain cpu mem net) as Hplain.
  revert Hplain. generalize (recommendations cpu mem net) as recs.
  set (header := (Py.nl +:+ _)%string).
  assert (forall recs w0,
            Forall (fun rec => plain_name (fst rec) = true) recs ->
            run (suggest_loop false keep_flag recs) w0
            = World (kern w0) (sysctl_conf w0) (original_values w0)
                    (stdout w0 ++ map (display_line (kern w0)) recs)
                    (shell w0 ++ map (fun rec => SysctlN (fst rec)) recs))
    as Hloop.
  { unfold suggest_loop. induction recs as [|[n v] recs IH]; intros w0 Hp.
    - cbn. rewrite !app_nil_r. by destruct w0.
    - apply Forall_cons in Hp as [Hn Hp]. cbn [fst] in Hn.
      rewrite for_each_cons, IH, suggest_one_world by done. cbv zeta.
      rewrite get_sysctl_world, current_reading by done.
      cbn [run print snd kern sysctl_conf original_values stdout shell map].
      unfold display_line at 2. cbn [fst snd].
      by rewrite <- !app_assoc. }
  intros recs Hplain. rewrite Hloop by done.
  cbn [kern sysctl_conf original_values stdout shell].
  by rewrite <- app_assoc.
Qed.

(** X11: with the apply flag, a call that starts with an empty table
    leaves in it one entry per recommendation, in display order, holding
    what [get_sysctl] read for that name before anything was written. *)
Theorem table_after_apply
    (cpu : cpu_info) (mem : memory_info) (net : network_settings)
    (keep_flag : bool) (w : world) :
  original_values w = [] ->
  original_values (run (suggest_tweaks cpu mem net true keep_flag) w)
  = map (capture (kern w)) (recommendations cpu mem net).
Proof. intros Hw. by rewrite (apply_world _ _ _ _ _ Hw). Qed.

Lemma table_after_apply_witness :
  original_values
    (run (suggest_tweaks ("", 4, "1")%string (8192, 6000) (16384, 16384)
                         true false) sample_world)
  = [ ("kern.sched.quantum", ""); ("hw.smt", "1"); ("kern.maxvnodes", "1000");
      ("net.inet.tcp.sendspace", "16384"); ("net.inet.tcp.recvspace", "16384");
      ("kern.somaxconn", "128") ]%string.
Proof.
  apply (table_after_apply ("", 4, "1")%string (8192, 6000) (16384, 16384)
           false sample_world).
  reflexivity.
Defined.

(** X12: with the apply flag, what a call that starts with an empty table
    prints after the header is, per recommendation, the display line with
    the value read before the run and then the report of the write, which
    says Success exactly for the names the kernel accepts. *)
Theorem apply_transcript
    (cpu : cpu_info) (mem : memory_info) (net : network_settings)
    (keep_flag : bool) (w : world) :
  original_values w = [] ->
  stdout (run (suggest_tweaks cpu mem net true keep_flag) w)
  = stdout w
      ++ (Py.nl +:+ "Recommended sysctl tweaks and performance suggestions:")
      :: flat_map (transcript (kern w)) (recommendations cpu mem net).
Proof. intros Hw. by rewrite (apply_world _ _ _ _ _ Hw). Qed.

Lemma apply_transcript_witness :
  stdout (run (suggest_tweaks ("", 1, "1")%string (2048, 2048) (65536, 65536)
                              true true) sample_world)
  = [ Py.nl +:+ "Recommended sysctl tweaks and performance suggestions:";
      "- hw.smt: Current = 1, Suggested = 0";
      "Setting hw.smt to 0: Failed";
      "- kern.bufcachepercent: Current = , Suggested = 15";
      "Setting kern.bufcachepercent to 15: Success";
      "- kern.somaxconn: Current = 128, Suggested = 1024";
      "Setting kern.somaxconn to 1024: Success" ]%string.
Proof.
  apply (apply_transcript ("", 1, "1")%string (2048, 2048) (65536, 65536)
           true sample_world).
  reflexivity.
Defined.

(** X13: whatever the flags and the table, [suggest_tweaks] runs one
    [sysctl -n] per recommendation and, with the apply flag, one
    [sysctl -w] for the same name right after it: every write comes
    straight after a read of the value it replaces. *)
Theorem suggest_tweaks_commands
    (cpu : cpu_info) (mem : memory_info) (net : network_settings)
    (try_flag keep_flag : bool) (w : world) :
  shell (run (suggest_tweaks cpu mem net try_flag keep_flag) w)
  = shell w ++ flat_map (commands_of try_flag) (recommendations cpu mem net).
Proof. by rewrite suggest_tweaks_world, suggest_loop_shell. Qed.

(** ** Apply, then revert *)

Lemma report_line_refused (k k' : kernel) (p : string * string) :
  refused k' = refused k -> report_line k' p = report_line k p.
Proof. intros H. unfold report_line. by rewrite H. Qed.

Lemma revert_names_stdout (names : list string) (w : world) :
  Forall (fun p => plain_entry p = true) (captured (original_values w) names) ->
  stdout (run (for_each names revert_sysctl) w)
  = stdout w ++ map (report_line (kern w)) (captured (original_values w) names).
Proof.
  revert w. induction names as [|n names IH]; intros w Hp.
  - cbn. by rewrite app_nil_r.
  - rewrite for_each_cons. cbn [captured flat_map] in Hp |- *.
    fold (captured (original_values w) names) in Hp |- *.
    rewrite revert_sysctl_world.
    destruct (Dict.get (original_values w) n) as [v|]; [|by apply IH].
    cbn [app] in Hp. apply Forall_cons in Hp as [Hnv Hp].
    apply andb_true_iff in Hnv as [Hn Hv]. cbn [fst snd] in Hn, Hv.
    rewrite IH; rewrite set_sysctl_world by done;
      cbn [kern original_values stdout Py.format app map]; [|done].
    rewrite exec_write_report, <- app_assoc. cbn [app].
    do 2 f_equal. apply map_ext. intros p.
    apply report_line_refused, exec_write_refused.
Qed.

(** X14: applying the recommendations and then running the revert loop, in
    one process that started with an empty table, gives back every
    reading, provided what each recommended tunable read before was plain
    text: [get_sysctl] then returns for every plain name what it returned
    before the apply, for names the kernel accepts and names it refuses,
    for names in the list and names outside it. *)
Theorem apply_revert_roundtrip
    (cpu : cpu_info) (mem : memory_info) (net : network_settings)
    (keep_flag : bool) (w : world) (name : string) :
  original_values w = [] ->
  Forall (fun rec => plain_value (fst (get_sysctl (fst rec) w)) = true)
         (recommendations cpu mem net) ->
  plain_name name = true ->
  let w' := run revert_loop (run (suggest_tweaks cpu mem net true keep_flag) w) in
  fst (get_sysctl name w') = fst (get_sysctl name w).
Proof.
  intros Hw Hread Hname. cbv zeta. rewrite !get_sysctl_eq by done. cbn [fst].
  rewrite revert_loop_world.
  set (w1 := run (suggest_tweaks cpu mem net true keep_flag) w).
  assert (original_values w1 = map (capture (kern w)) (recommendations cpu mem net))
    as Ht by (unfold w1; by rewrite (apply_world _ _ _ _ _ Hw)).
  assert (kern w1 = writes (map assignment (recommendations cpu mem net)) (kern w))
    as Hk by (unfold w1; by rewrite (apply_world _ _ _ _ _ Hw)).
  pose proof (recommendations_plain cpu mem net) as Hplain.
  pose proof (recommendations_NoDup cpu mem net) as Hnd.
  set (recs := recommendations cpu mem net) in *.
  assert (Dict.keys (original_values w1) = map fst recs) as Hkeys.
  { rewrite Ht. unfold Dict.keys. rewrite map_map. reflexivity. }
  assert (Forall (fun p => plain_entry p = true) (map (capture (kern w)) recs))
    as Hentries.
  { apply Forall_forall. intros p Hp.
    apply list_elem_of_In, in_map_iff in Hp as ([n v] & <- & Hin).
    apply list_elem_of_In in Hin.
    pose proof (proj1 (Forall_forall _ _) Hplain _ Hin) as Hn.
    pose proof (proj1 (Forall_forall _ _) Hread _ Hin) as Hv.
    cbn [fst] in Hn, Hv. rewrite get_sysctl_eq in Hv by done.
    unfold plain_entry, capture. cbn [fst snd] in *. by rewrite Hn, Hv. }
  rewrite revert_names_kern
    by (rewrite captured_keys by (by rewrite Hkeys); by rewrite Ht).
  rewrite captured_keys by (by rewrite Hkeys).
  rewrite Ht, Hk. clear Ht Hk Hkeys w1.
  assert (map fst (map (capture (kern w)) recs) = map fst recs) as Hfst
    by (by rewrite map_map).
  assert (map fst (map assignment recs) = map fst recs) as Hfst'
    by (by rewrite map_map).
  destruct (decide (name ∈ refused (kern w))) as [Hr|Hr].
  { apply reading_ext.
    rewrite writes_refused_name by (by rewrite writes_refused).
    by apply writes_refused_name. }
  destruct (decide (name ∈ map fst recs)) as [Hin|Hin].
  - apply list_elem_of_In, in_map_iff in Hin as ([n v] & <- & Hin).
    cbn [fst].
    rewrite (reading_lookup (writes _ _)).
    rewrite (writes_accepted _ _ n (reading (kern w) n)).
    + apply reading_stripped.
    + by rewrite Hfst.
    + change (n, reading (kern w) n) with (capture (kern w) (n, v)).
      by apply in_map.
    + by rewrite writes_refused.
  - apply reading_ext.
    rewrite writes_other
      by (rewrite Hfst; intros H; by apply Hin, list_elem_of_In).
    apply writes_other. rewrite Hfst'. intros H. by apply Hin, list_elem_of_In.
Qed.

Lemma apply_revert_roundtrip_witness :
  fst (get_sysctl "kern.somaxconn"
         (run revert_loop
            (run (suggest_tweaks ("", 1, "0")%string (8192, 6000)
                                 (16384, 16384) true true) sample_world)))
  = "128"%string.
Proof.
  apply (apply_revert_roundtrip ("", 1, "0")%string (8192, 6000)
           (16384, 16384) true sample_world "kern.somaxconn").
  - reflexivity.
  - repeat constructor.
  - reflexivity.
Defined.

(** X15: when the names and values in the table are plain text, the
    revert loop prints one report per table entry, in table order, and
    the report says Success exactly when the kernel accepts writes to
    that name. *)
Theorem revert_report (w : world) :
  NoDup (Dict.keys (original_values w)) ->
  Forall (fun p => plain_entry p = true) (original_values w) ->
  stdout (run revert_loop w)
  = stdout w ++ map (report_line (kern w)) (original_values w).
Proof.
  intros Hd Hp. rewrite revert_loop_world, revert_names_stdout.
  - by rewrite captured_keys.
  - by rewrite captured_keys.
Qed.

Lemma revert_report_witness :
  stdout (run revert_loop sample_world_applied)
  = [ "Setting kern.maxvnodes to 1000: Success";
      "Setting kern.somaxconn to 128: Success" ]%string.
Proof.
  apply (revert_report sample_world_applied).
  - apply NoDup_ListNoDup. repeat constructor; cbn; intuition discriminate.
  - repeat constructor.
Defined.

(** ** The persistent file *)

(** X17: persisted lines are not deduplicated: applying and persisting the
    same advice twice leaves its lines in the file twice. *)
Theorem persist_not_deduplicated
    (cpu : cpu_info) (mem : memory_info) (net : network_settings) (w : world) :
  let recs := recommendations cpu mem net in
  sysctl_conf (run (suggest_tweaks cpu mem net true true)
                   (run (suggest_tweaks cpu mem net true true) w))
  = sysctl_conf w +:+ conf_text recs +:+ conf_text recs.
Proof.
  cbv zeta. rewrite !suggest_tweaks_world.
  repeat (rewrite suggest_loop_conf; cbn [andb sysctl_conf]).
  apply append_assoc.
Qed.
